(** * Activity log: normalizers, event store, correlator, notification rules

    A shallow embedding of the ingestion pipeline of the activity log
    (tools/activity_log/normalizers.py, tools/activity_log/models.py,
    activity_log/notifications.py, activity_log/router.py), and the
    properties established about it.

    Modelling conventions.
    - A webhook payload is a parsed JSON document ([json]).  JSON numbers
      are integers and strings are sequences of one-byte characters; Python
      [str] methods are modelled on ASCII.
    - A [datetime] is an integer number of microseconds since the Unix
      epoch, UTC.  The quotient [int(ts) / 1000] and [datetime.timestamp()]
      are taken exactly.
    - Python exceptions are values of [result]; code whose committed
      database writes survive a later exception threads the database next
      to the result.
    - The database is a relational store: a table is the list of its rows
      in insertion order, a row holds the values handed to it, and SQL is
      read with its relational meaning over instants.  How the driver and
      the storage engine render, round and compare values as text is
      outside the model.
    - The wall clock and the remote webhook endpoint are inputs: [now] is
      the reading of [datetime.now(timezone.utc)], one reading for a call,
      and [net] gives the outcome of an outbound POST.
    - A request to a receiver is the bytes of its body and its two
      signature headers; the JSON parser of the framework is a parameter
      ([loads]), and so is the secret the environment holds.
    - A value assigned to a settings column is kept when it has the type
      of the column; what the mapper and the engine make of a value of
      another type is not modelled.  The text the engine holds for a
      stored value that is neither a string nor [None] is a parameter
      ([stored_text]). *)

From Stdlib Require Import ZArith List String Ascii Bool Lia.
From Stdlib Require Import DecimalString DecimalPos Sorted.
Import ListNotations.

Local Open Scope string_scope.
Local Open Scope Z_scope.

(** ** Python values and built-ins *)

Module Py.

(** The exceptions the modelled code can raise. *)
Inductive exn : Type :=
| AttributeError
| TypeError
| ValueError
| OverflowError.

Inductive result (A : Type) : Type :=
| Ok (a : A)
| Raise (e : exn).
Arguments Ok {A} a.
Arguments Raise {A} e.

Definition bind {A B : Type} (m : result A) (k : A -> result B) : result B :=
  match m with
  | Ok a => k a
  | Raise e => Raise e
  end.

Declare Scope py_scope.
Delimit Scope py_scope with py.
Notation "x <- m ;; k" := (bind m (fun x => k))
  (at level 61, m at next level, right associativity) : py_scope.

(** What [json.loads] returns: [None], [bool], [int], [str], [list], [dict]
    (a dict keeps its keys in insertion order). *)
#[warnings="-register-all"]
Inductive json : Type :=
| JNull
| JBool (b : bool)
| JInt (z : Z)
| JStr (s : string)
| JList (l : list json)
| JDict (d : list (string * json)).

Definition is_dict (v : json) : bool :=
  match v with JDict _ => true | _ => false end.

Definition is_str (v : json) : bool :=
  match v with JStr _ => true | _ => false end.

(** [bool(v)] *)
Definition truthy (v : json) : bool :=
  match v with
  | JNull => false
  | JBool b => b
  | JInt z => negb (z =? 0)
  | JStr s => negb (s =? "")%string
  | JList l => match l with [] => false | _ => true end
  | JDict d => match d with [] => false | _ => true end
  end.

(** [a or b], both operands already evaluated. *)
Definition py_or (a b : json) : json := if truthy a then a else b.

Fixpoint lookup (k : string) (d : list (string * json)) : option json :=
  match d with
  | [] => None
  | (k', v) :: d' => if (k =? k')%string then Some v else lookup k d'
  end.

(** [obj.get(key, default)]; only a dict has a [get] method. *)
Definition get_default (obj : json) (key : string) (default : json) : result json :=
  match obj with
  | JDict d => Ok (match lookup key d with Some v => v | None => default end)
  | _ => Raise AttributeError
  end.

(** [obj.get(key)] *)
Definition get (obj : json) (key : string) : result json :=
  get_default obj key JNull.

(** *** Characters and strings *)

Definition chr (n : Z) : ascii := ascii_of_N (Z.to_N n).
Definition ord (c : ascii) : Z := Z.of_N (N_of_ascii c).

Definition str1 (c : ascii) : string := String c EmptyString.

Definition hexchars : list ascii :=
  ["0"; "1"; "2"; "3"; "4"; "5"; "6"; "7"; "8"; "9"; "a"; "b"; "c"; "d"; "e"; "f"]%char.

Definition hex_digit (n : Z) : ascii := nth (Z.to_nat n) hexchars "0"%char.

(** Two lowercase hexadecimal digits of a byte. *)
Definition hex_byte (b : Z) : string :=
  String (hex_digit ((b / 16) mod 16)) (String (hex_digit (b mod 16)) EmptyString).

(** [str.isspace()] on one ASCII character. *)
Definition is_space (c : ascii) : bool :=
  let n := ord c in
  ((9 <=? n) && (n <=? 13)) || ((28 <=? n) && (n <=? 32)).

Definition is_digit (c : ascii) : bool :=
  let n := ord c in (48 <=? n) && (n <=? 57).

Definition is_lower (c : ascii) : bool :=
  let n := ord c in (97 <=? n) && (n <=? 122).

Definition is_upper (c : ascii) : bool :=
  let n := ord c in (65 <=? n) && (n <=? 90).

Definition to_upper (c : ascii) : ascii :=
  if is_lower c then chr (ord c - 32) else c.

Definition to_lower (c : ascii) : ascii :=
  if is_upper c then chr (ord c + 32) else c.

Fixpoint map_chars (f : ascii -> ascii) (s : string) : string :=
  match s with
  | EmptyString => EmptyString
  | String c s' => String (f c) (map_chars f s')
  end.

(** [s.upper()], [s.lower()] *)
Definition upper (s : string) : string := map_chars to_upper s.
Definition lower (s : string) : string := map_chars to_lower s.

(** [s.replace(a, b)] for one-character [a] and [b]. *)
Definition replace_char (a b : ascii) (s : string) : string :=
  map_chars (fun c => if Ascii.eqb c a then b else c) s.

(** [s.title()]: a letter is upper-cased when it follows a non-letter. *)
Fixpoint title_from (prev_cased : bool) (s : string) : string :=
  match s with
  | EmptyString => EmptyString
  | String c s' =>
      let cased := is_lower c || is_upper c in
      String (if prev_cased then to_lower c else to_upper c) (title_from cased s')
  end.

Definition title (s : string) : string := title_from false s.

Fixpoint lstrip (space : ascii -> bool) (s : string) : string :=
  match s with
  | EmptyString => EmptyString
  | String c s' => if space c then lstrip space s' else s
  end.

Fixpoint rstrip (space : ascii -> bool) (s : string) : string :=
  match s with
  | EmptyString => EmptyString
  | String c s' =>
      match rstrip space s' with
      | EmptyString => if space c then EmptyString else str1 c
      | r => String c r
      end
  end.

(** [s.strip()] *)
Definition strip (s : string) : string := rstrip is_space (lstrip is_space s).

(** [needle in s] for strings. *)
Fixpoint contains (needle s : string) : bool :=
  prefix needle s ||
  match s with
  | EmptyString => false
  | String _ s' => contains needle s'
  end.

(** [s[:n]] *)
Fixpoint take (n : nat) (s : string) : string :=
  match n, s with
  | S n', String c s' => String c (take n' s')
  | _, _ => EmptyString
  end.

(** [sep.join(parts)] *)
Definition join (sep : string) (parts : list string) : string :=
  String.concat sep parts.

(** The characters of a string, as one-character strings (iteration). *)
Fixpoint chars (s : string) : list string :=
  match s with
  | EmptyString => []
  | String c s' => str1 c :: chars s'
  end.

(** [str(z)] for an integer. *)
Definition str_of_int (z : Z) : string := NilZero.string_of_int (Z.to_int z).

(** [repr(s)] for a string: single quotes unless the string has a single
    quote and no double quote; backslash, the chosen quote and control
    characters are escaped. *)
Definition squote : ascii := chr 39.
Definition dquote : ascii := chr 34.
Definition backslash : ascii := chr 92.

Definition repr_char (quote c : ascii) : string :=
  if Ascii.eqb c quote || Ascii.eqb c backslash then String backslash (str1 c)
  else if ord c =? 9 then String backslash "t"
  else if ord c =? 10 then String backslash "n"
  else if ord c =? 13 then String backslash "r"
  else if (ord c <? 32) || (ord c =? 127) then String backslash ("x" ++ hex_byte (ord c))
  else str1 c.

Fixpoint repr_chars (quote : ascii) (s : string) : string :=
  match s with
  | EmptyString => EmptyString
  | String c s' => repr_char quote c ++ repr_chars quote s'
  end.

Definition repr_str (s : string) : string :=
  let quote :=
    if contains (str1 squote) s && negb (contains (str1 dquote) s)
    then dquote else squote in
  String quote (repr_chars quote s ++ str1 quote).

(** [repr(v)] *)
Fixpoint repr (v : json) : string :=
  match v with
  | JNull => "None"
  | JBool true => "True"
  | JBool false => "False"
  | JInt z => str_of_int z
  | JStr s => repr_str s
  | JList l => "[" ++ join ", " (map repr l) ++ "]"
  | JDict d =>
      "{" ++ join ", " (map (fun kv => repr_str (fst kv) ++ ": " ++ repr (snd kv)) d) ++ "}"
  end.

(** [str(v)], also what an f-string field formats to. *)
Definition str (v : json) : string :=
  match v with
  | JStr s => s
  | _ => repr v
  end.

(** The whitespace [int] skips around a number: tab to carriage return,
    and space. *)
Definition is_c_space (c : ascii) : bool :=
  let n := ord c in ((9 <=? n) && (n <=? 13)) || (n =? 32).

(** [int(s)] for a string: surrounding whitespace, an optional sign, then
    decimal digits in which single underscores may separate digits. *)
Fixpoint digits_value (acc : Z) (prev_digit : bool) (s : string) : option Z :=
  match s with
  | EmptyString => if prev_digit then Some acc else None
  | String c s' =>
      if is_digit c then digits_value (acc * 10 + (ord c - 48)) true s'
      else if Ascii.eqb c "_"%char && prev_digit then digits_value acc false s'
      else None
  end.

Definition int_of_str (s : string) : option Z :=
  match rstrip is_c_space (lstrip is_c_space s) with
  | String "-"%char s' => option_map Z.opp (digits_value 0 false s')
  | String "+"%char s' => digits_value 0 false s'
  | s' => digits_value 0 false s'
  end.

(** [int(v)] *)
Definition int (v : json) : result Z :=
  match v with
  | JInt z => Ok z
  | JBool b => Ok (if b then 1 else 0)
  | JStr s => match int_of_str s with Some z => Ok z | None => Raise ValueError end
  | _ => Raise TypeError
  end.

(** [a == b] between a JSON value and a string literal. *)
Definition eq_str (v : json) (s : string) : bool :=
  match v with
  | JStr s' => (s' =? s)%string
  | _ => false
  end.

(** [needle in v] for a string literal [needle]: substring of a string,
    element of a list, key of a dict; other values are not containers. *)
Definition py_in (needle : string) (v : json) : result bool :=
  match v with
  | JStr s => Ok (contains needle s)
  | JList l => Ok (existsb (fun x => eq_str x needle) l)
  | JDict d => Ok (existsb (fun kv => (fst kv =? needle)%string) d)
  | _ => Raise TypeError
  end.

(** [sep.join(v)]: the iterable must yield strings only. *)
Definition join_json (sep : string) (v : json) : result string :=
  match v with
  | JStr s => Ok (join sep (chars s))
  | JList l =>
      if forallb is_str l
      then Ok (join sep (map str l))
      else Raise TypeError
  | JDict d => Ok (join sep (map fst d))
  | _ => Raise TypeError
  end.

End Py.

(** ** SHA-1 ([hashlib.sha1]) on byte strings *)

Module Sha1.

Definition add32 (a b : Z) : Z := (a + b) mod 2 ^ 32.

Definition rotl (n x : Z) : Z :=
  Z.lor (Z.shiftl x n mod 2 ^ 32) (Z.shiftr x (32 - n)).

Definition not32 (x : Z) : Z := Z.lxor x 0xFFFFFFFF.

(** The [n] low bytes of [x], most significant first. *)
Fixpoint be_bytes (n : nat) (x : Z) : list Z :=
  match n with
  | O => []
  | S n' => Z.shiftr x (8 * Z.of_nat n') mod 256 :: be_bytes n' x
  end.

Definition bytes_of_string (s : string) : list Z :=
  map Py.ord (list_ascii_of_string s).

(** Message padding: a one bit, zeros up to 56 modulo 64, the bit length. *)
Definition pad (msg : list Z) : list Z :=
  let len := Z.of_nat (List.length msg) in
  (msg ++ [128] ++ repeat 0 (Z.to_nat ((55 - len) mod 64)) ++ be_bytes 8 (8 * len))%list.

(** Big-endian 32-bit words of a byte sequence. *)
Fixpoint words (bs : list Z) : list Z :=
  match bs with
  | b0 :: b1 :: b2 :: b3 :: bs' =>
      (Z.shiftl b0 24 + Z.shiftl b1 16 + Z.shiftl b2 8 + b3) :: words bs'
  | _ => []
  end.

(** The message schedule, newest word first. *)
Fixpoint extend (n : nat) (rev_w : list Z) : list Z :=
  match n with
  | O => rev_w
  | S n' =>
      let x := Z.lxor (Z.lxor (nth 2 rev_w 0) (nth 7 rev_w 0))
                      (Z.lxor (nth 13 rev_w 0) (nth 15 rev_w 0)) in
      extend n' (rotl 1 x :: rev_w)
  end.

Definition schedule (block : list Z) : list Z := rev (extend 64 (rev block)).

Definition state : Type := Z * Z * Z * Z * Z.

Definition round (st : state) (tw : nat * Z) : state :=
  let '(a, b, c, d, e) := st in
  let '(t, w) := tw in
  let '(f, k) :=
    if (t <? 20)%nat then (Z.lor (Z.land b c) (Z.land (not32 b) d), 0x5A827999)
    else if (t <? 40)%nat then (Z.lxor (Z.lxor b c) d, 0x6ED9EBA1)
    else if (t <? 60)%nat
         then (Z.lor (Z.lor (Z.land b c) (Z.land b d)) (Z.land c d), 0x8F1BBCDC)
    else (Z.lxor (Z.lxor b c) d, 0xCA62C1D6) in
  let temp := add32 (add32 (add32 (add32 (rotl 5 a) f) e) k) w in
  (temp, a, rotl 30 b, c, d).

Definition compress (h : state) (block : list Z) : state :=
  let '(h0, h1, h2, h3, h4) := h in
  let '(a, b, c, d, e) :=
    fold_left round (combine (seq 0 80) (schedule block)) h in
  (add32 h0 a, add32 h1 b, add32 h2 c, add32 h3 d, add32 h4 e).

(** Feed the words one by one; compress whenever sixteen are buffered. *)
Definition feed (acc : state * list Z) (w : Z) : state * list Z :=
  let '(h, buf) := acc in
  let buf' := (buf ++ [w])%list in
  if (List.length buf' =? 16)%nat then (compress h buf', []) else (h, buf').

Definition init : state :=
  (0x67452301, 0xEFCDAB89, 0x98BADCFE, 0x10325476, 0xC3D2E1F0).

(** The twenty digest bytes. *)
Definition digest (msg : list Z) : list Z :=
  let '(h0, h1, h2, h3, h4) := fst (fold_left feed (words (pad msg)) (init, [])) in
  (be_bytes 4 h0 ++ be_bytes 4 h1 ++ be_bytes 4 h2 ++ be_bytes 4 h3 ++ be_bytes 4 h4)%list.

Fixpoint hex_of_bytes (bs : list Z) : string :=
  match bs with
  | [] => EmptyString
  | b :: bs' => Py.hex_byte b ++ hex_of_bytes bs'
  end.

(** [hashlib.sha1(s.encode()).hexdigest()] *)
Definition hexdigest (s : string) : string :=
  hex_of_bytes (digest (bytes_of_string s)).

End Sha1.

(** ** SHA-256 and HMAC ([hashlib.sha256], [hmac]) on byte strings *)

Module Sha256.
Import Sha1.

Definition rotr (n x : Z) : Z := rotl (32 - n) x.

Definition K : list Z :=
  [
    0x428A2F98; 0x71374491; 0xB5C0FBCF; 0xE9B5DBA5;
    0x3956C25B; 0x59F111F1; 0x923F82A4; 0xAB1C5ED5;
    0xD807AA98; 0x12835B01; 0x243185BE; 0x550C7DC3;
    0x72BE5D74; 0x80DEB1FE; 0x9BDC06A7; 0xC19BF174;
    0xE49B69C1; 0xEFBE4786; 0x0FC19DC6; 0x240CA1CC;
    0x2DE92C6F; 0x4A7484AA; 0x5CB0A9DC; 0x76F988DA;
    0x983E5152; 0xA831C66D; 0xB00327C8; 0xBF597FC7;
    0xC6E00BF3; 0xD5A79147; 0x06CA6351; 0x14292967;
    0x27B70A85; 0x2E1B2138; 0x4D2C6DFC; 0x53380D13;
    0x650A7354; 0x766A0ABB; 0x81C2C92E; 0x92722C85;
    0xA2BFE8A1; 0xA81A664B; 0xC24B8B70; 0xC76C51A3;
    0xD192E819; 0xD6990624; 0xF40E3585; 0x106AA070;
    0x19A4C116; 0x1E376C08; 0x2748774C; 0x34B0BCB5;
    0x391C0CB3; 0x4ED8AA4A; 0x5B9CCA4F; 0x682E6FF3;
    0x748F82EE; 0x78A5636F; 0x84C87814; 0x8CC70208;
    0x90BEFFFA; 0xA4506CEB; 0xBEF9A3F7; 0xC67178F2 ].

Definition sigma0 (x : Z) : Z := Z.lxor (Z.lxor (rotr 7 x) (rotr 18 x)) (Z.shiftr x 3).
Definition sigma1 (x : Z) : Z := Z.lxor (Z.lxor (rotr 17 x) (rotr 19 x)) (Z.shiftr x 10).

(** The message schedule, newest word first. *)
Fixpoint extend (n : nat) (rev_w : list Z) : list Z :=
  match n with
  | O => rev_w
  | S n' =>
      let w := add32 (add32 (add32 (sigma1 (nth 1 rev_w 0)) (nth 6 rev_w 0))
                        (sigma0 (nth 14 rev_w 0))) (nth 15 rev_w 0) in
      extend n' (w :: rev_w)
  end.

Definition schedule (block : list Z) : list Z := rev (extend 48 (rev block)).

Definition state : Type := Z * Z * Z * Z * Z * Z * Z * Z.

Definition round (st : state) (kw : Z * Z) : state :=
  let '(a, b, c, d, e, f, g, h) := st in
  let '(k, w) := kw in
  let S1 := Z.lxor (Z.lxor (rotr 6 e) (rotr 11 e)) (rotr 25 e) in
  let ch := Z.lxor (Z.land e f) (Z.land (not32 e) g) in
  let temp1 := add32 (add32 (add32 (add32 h S1) ch) k) w in
  let S0 := Z.lxor (Z.lxor (rotr 2 a) (rotr 13 a)) (rotr 22 a) in
  let maj := Z.lxor (Z.lxor (Z.land a b) (Z.land a c)) (Z.land b c) in
  let temp2 := add32 S0 maj in
  (add32 temp1 temp2, a, b, c, add32 d temp1, e, f, g).

Definition compress (hs : state) (block : list Z) : state :=
  let '(h0, h1, h2, h3, h4, h5, h6, h7) := hs in
  let '(a, b, c, d, e, f, g, h) := fold_left round (combine K (schedule block)) hs in
  (add32 h0 a, add32 h1 b, add32 h2 c, add32 h3 d,
   add32 h4 e, add32 h5 f, add32 h6 g, add32 h7 h).

(** Feed the words one by one; compress whenever sixteen are buffered. *)
Definition feed (acc : state * list Z) (w : Z) : state * list Z :=
  let '(hs, buf) := acc in
  let buf' := (buf ++ [w])%list in
  if (List.length buf' =? 16)%nat then (compress hs buf', []) else (hs, buf').

Definition init : state :=
  (0x6A09E667, 0xBB67AE85, 0x3C6EF372, 0xA54FF53A,
   0x510E527F, 0x9B05688C, 0x1F83D9AB, 0x5BE0CD19).

(** The thirty-two digest bytes. *)
Definition digest (msg : list Z) : list Z :=
  let '(h0, h1, h2, h3, h4, h5, h6, h7) :=
    fst (fold_left feed (words (pad msg)) (init, [])) in
  (be_bytes 4 h0 ++ be_bytes 4 h1 ++ be_bytes 4 h2 ++ be_bytes 4 h3
   ++ be_bytes 4 h4 ++ be_bytes 4 h5 ++ be_bytes 4 h6 ++ be_bytes 4 h7)%list.

End Sha256.

Module Hmac.

(** [s.encode()]: UTF-8, a character above 127 as two bytes. *)
Definition encode (s : string) : list Z :=
  flat_map (fun c => if c <? 128 then [c] else [192 + c / 64; 128 + c mod 64])
           (Sha1.bytes_of_string s).

(** The key as one 64-byte block: hashed when longer, then filled with zeros. *)
Definition block_key (key : list Z) : list Z :=
  let k := if (64 <? List.length key)%nat then Sha256.digest key else key in
  (k ++ repeat 0 (64 - List.length k))%list.

(** [hmac.new(key, msg, hashlib.sha256).hexdigest()] *)
Definition hexdigest (key msg : list Z) : string :=
  let k := block_key key in
  let inner := Sha256.digest (map (Z.lxor 0x36) k ++ msg) in
  Sha1.hex_of_bytes (Sha256.digest (map (Z.lxor 0x5C) k ++ inner)).

End Hmac.

(** ** Payload normalizers (tools/activity_log/normalizers.py) *)

Module Normalizers.
Import Py.
Local Open Scope py_scope.

(** Microseconds since the epoch, UTC. *)
Definition datetime : Type := Z.

(** The instants a [datetime] can hold: years 1 to 9999. *)
Definition MIN_MS : Z := -62135596800000.
Definition MAX_MS : Z := 253402300799999.

(** [datetime.fromtimestamp(ms / 1000, tz=timezone.utc)] *)
Definition fromtimestamp_ms (ms : Z) : result datetime :=
  if (MIN_MS <=? ms) && (ms <=? MAX_MS) then Ok (ms * 1000) else Raise OverflowError.

(** Convert a millisecond epoch timestamp to UTC datetime; whatever the
    conversion raises, the answer is the clock reading.  (Its sibling
    [_iso_to_dt], for ISO-8601 text, is defined in the source and called
    nowhere.) *)
Definition _ts_to_dt (now : datetime) (ts : json) : datetime :=
  match (z <- int ts ;; fromtimestamp_ms z) with
  | Ok dt => dt
  | Raise _ => now
  end.

(** [int(dt.timestamp())]: whole seconds, truncated toward zero. *)
Definition timestamp_int (dt : datetime) : Z := Z.quot dt 1000000.

(** Generate a deterministic deduplication ID: the parts that are truthy,
    joined behind the prefix, hashed, cut to 24 characters. *)
Definition _dedup_id (prefix : string) (parts : list json) : string :=
  let raw := prefix ++ "-" ++ join "-" (map str (filter truthy parts)) in
  take 24 (Sha1.hexdigest raw).

(** [m or k] where [k] is evaluated only when [m] is falsy. *)
Definition or_else (m k : result json) : result json :=
  x <- m ;; if truthy x then Ok x else k.

Fixpoint lookup_str (k : string) (table : list (string * string)) : option string :=
  match table with
  | [] => None
  | (k', v) :: table' => if (k =? k')%string then Some v else lookup_str k table'
  end.

(** The normalized event dict; [T] is the type under the key [occurred_at]. *)
Record event_dict (T : Type) : Type := {
  event_id : string;
  source : string;
  event_type : string;
  raw_event_type : json;
  user_id : json;
  user_name : json;
  location : json;
  action : json;
  metadata_json : json;
  occurred_at : T
}.
Arguments event_id {T}.
Arguments source {T}.
Arguments event_type {T}.
Arguments raw_event_type {T}.
Arguments user_id {T}.
Arguments user_name {T}.
Arguments location {T}.
Arguments action {T}.
Arguments metadata_json {T}.
Arguments occurred_at {T}.

(** *** Access normalizer *)

Definition ACCESS_ACTION_MAP : list (string * string) :=
  [ ("access.logs.add", "access_granted");
    ("access.logs.denied", "access_denied");
    ("access.door.unlock", "door_unlocked");
    ("access.door.open", "door_opened");
    ("access.door.close", "door_closed");
    ("access.door.held_open", "door_held_open");
    ("access.remote_view.change", "remote_view_change") ].

(** [ACCESS_ACTION_MAP.get(event_type, event_type.replace(".", "_"))]: the
    default is computed before the lookup, so [event_type] must be a string. *)
Definition access_action (event_type : json) : result json :=
  match event_type with
  | JStr s =>
      let default := replace_char "."%char "_"%char s in
      Ok (JStr (match lookup_str s ACCESS_ACTION_MAP with Some a => a | None => default end))
  | _ => Raise AttributeError
  end.

Definition normalize_access (now : datetime) (payload : json)
  : result (option (event_dict datetime)) :=
  event_type <- or_else (get payload "event")
                  (or_else (get payload "type") (Ok (JStr "unknown"))) ;;
  data <- get_default payload "data" payload ;;
  ts <- or_else (get data "timestamp") (get payload "timestamp") ;;
  let occurred_at := if truthy ts then _ts_to_dt now ts else now in
  actor <- get_default data "actor" (JDict []) ;;
  user_id <- or_else (get actor "id")
               (or_else (get data "actor_id") (get data "user_id")) ;;
  first <- get_default actor "first_name" (JStr "") ;;
  last <- get_default actor "last_name" (JStr "") ;;
  display_name <- get actor "display_name" ;;
  let user_name :=
    py_or display_name (py_or (JStr (strip (str first ++ " " ++ str last))) JNull) in
  door <- get_default data "door" (JDict []) ;;
  location <- or_else (get door "name")
                (or_else (get data "door_name") (get data "location")) ;;
  action <- access_action event_type ;;
  id <- get data "id" ;;
  let event_id :=
    py_or id (JStr (_dedup_id "acc" [user_id; event_type; JInt (timestamp_int occurred_at)])) in
  Ok (Some {| event_id := str event_id;
              source := "access";
              event_type := "physical_access";
              raw_event_type := event_type;
              user_id := user_id;
              user_name := user_name;
              location := location;
              action := action;
              metadata_json := payload;
              occurred_at := occurred_at |}).

(** *** Protect normalizer *)

Definition PROTECT_ACTION_MAP : list (string * string) :=
  [ ("ring", "doorbell_ring");
    ("motion", "motion_detected");
    ("smartDetectZone", "smart_detect");
    ("smartDetectLine", "smart_detect");
    ("recording", "recording_event");
    ("camera", "camera_event") ].

(** [PROTECT_ACTION_MAP.get(event_type, event_type)]: the key must be
    hashable; a key that is not a string finds nothing. *)
Definition protect_action (event_type : json) : result json :=
  match event_type with
  | JStr s =>
      Ok (match lookup_str s PROTECT_ACTION_MAP with Some a => JStr a | None => event_type end)
  | JList _ | JDict _ => Raise TypeError
  | _ => Ok event_type
  end.

Definition normalize_protect (now : datetime) (payload : json)
  : result (option (event_dict datetime)) :=
  event_type <- or_else (get payload "type")
                  (or_else (get payload "event") (Ok (JStr "unknown"))) ;;
  data <- get_default payload "data" payload ;;
  ts <- or_else (get data "start")
          (or_else (get data "timestamp") (get payload "timestamp")) ;;
  let occurred_at := if truthy ts then _ts_to_dt now ts else now in
  camera_id <- or_else (get data "camera") (get data "cameraId") ;;
  camera_name <- or_else (get data "cameraName")
                   (or_else (get data "camera_name") (Ok camera_id)) ;;
  smart_types <- get_default data "smartDetectTypes" (JList []) ;;
  mapped <- protect_action event_type ;;
  action <- (if truthy smart_types
             then joined <- join_json "," smart_types ;;
                  Ok (JStr ("smart_detect:" ++ joined))
             else Ok mapped) ;;
  id <- get data "id" ;;
  let event_id :=
    py_or id (JStr (_dedup_id "prot" [camera_id; event_type; JInt (timestamp_int occurred_at)])) in
  zone <- get data "zone" ;;
  Ok (Some {| event_id := str event_id;
              source := "protect";
              event_type := "video_event";
              raw_event_type := event_type;
              user_id := camera_id;
              user_name := camera_name;
              location := py_or camera_name zone;
              action := action;
              metadata_json := payload;
              occurred_at := occurred_at |}).

End Normalizers.

(** ** Database models (tools/activity_log/models.py) *)

Module Models.
Import Py.

Abbreviation datetime := Normalizers.datetime.

(** A row of [activity_events]. *)
Module ActivityEvent.
Record t : Type := {
  id : Z;
  event_id : string;
  source : string;
  event_type : string;
  raw_event_type : json;
  user_id : json;
  user_name : json;
  location : json;
  action : json;
  metadata_json : json;
  occurred_at : datetime;
  received_at : datetime
}.
End ActivityEvent.

(** The row of [activity_webhook_config].  A NULL boolean column reads as
    false wherever the code tests it. *)
Module ActivityWebhookConfig.
Record t : Type := {
  id : Z;
  enabled : bool;
  webhook_url : option string;
  webhook_type : option string;
  event_access_granted : bool;
  event_access_denied : bool;
  event_door_held_open : bool;
  event_person_detected : bool;
  event_vehicle_detected : bool;
  event_doorbell_ring : bool;
  event_motion : bool
}.

(** The column defaults. *)
Definition default (i : Z) : t :=
  {| id := i;
     enabled := false;
     webhook_url := None;
     webhook_type := Some "slack";
     event_access_granted := true;
     event_access_denied := true;
     event_door_held_open := false;
     event_person_detected := true;
     event_vehicle_detected := false;
     event_doorbell_ring := true;
     event_motion := false |}.
(** [to_dict]: the row as the settings endpoints answer it, a boolean
    column as the record reads it. *)
Definition to_dict (c : t) : json :=
  let text (o : option string) := match o with Some s => JStr s | None => JNull end in
  JDict [("id", JInt (id c));
         ("enabled", JBool (enabled c));
         ("webhook_url", text (webhook_url c));
         ("webhook_type", text (webhook_type c));
         ("event_access_granted", JBool (event_access_granted c));
         ("event_access_denied", JBool (event_access_denied c));
         ("event_door_held_open", JBool (event_door_held_open c));
         ("event_person_detected", JBool (event_person_detected c));
         ("event_vehicle_detected", JBool (event_vehicle_detected c));
         ("event_doorbell_ring", JBool (event_doorbell_ring c));
         ("event_motion", JBool (event_motion c))].

End ActivityWebhookConfig.

(** The row built from the keywords of [event_data], once inserted: the key
    gets the next autoincrement value and [received_at] the insert time. *)
Definition new_event (next_id : Z) (now : datetime)
    (e : Normalizers.event_dict datetime) : ActivityEvent.t :=
  {| ActivityEvent.id := next_id;
     ActivityEvent.event_id := Normalizers.event_id e;
     ActivityEvent.source := Normalizers.source e;
     ActivityEvent.event_type := Normalizers.event_type e;
     ActivityEvent.raw_event_type := Normalizers.raw_event_type e;
     ActivityEvent.user_id := Normalizers.user_id e;
     ActivityEvent.user_name := Normalizers.user_name e;
     ActivityEvent.location := Normalizers.location e;
     ActivityEvent.action := Normalizers.action e;
     ActivityEvent.metadata_json := Normalizers.metadata_json e;
     ActivityEvent.occurred_at := Normalizers.occurred_at e;
     ActivityEvent.received_at := now |}.

(** The two tables. *)
Record database : Type := {
  activity_events : list ActivityEvent.t;
  activity_webhook_config : list ActivityWebhookConfig.t
}.

End Models.

(** ** Calendar rendering ([datetime.isoformat]) *)

Module Calendar.

Fixpoint zfill_digits (width : nat) (n : Z) : string :=
  match width with
  | O => EmptyString
  | S w => zfill_digits w (n / 10) ++ Py.str1 (Py.chr (48 + n mod 10))
  end.

(** Year, month, day of a day number counted from 1970-01-01. *)
Definition civil_from_days (days : Z) : Z * Z * Z :=
  let z := days + 719468 in
  let era := z / 146097 in
  let doe := z - era * 146097 in
  let yoe := (doe - doe / 1460 + doe / 36524 - doe / 146096) / 365 in
  let doy := doe - (365 * yoe + yoe / 4 - yoe / 100) in
  let mp := (5 * doy + 2) / 153 in
  let d := doy - (153 * mp + 2) / 5 + 1 in
  let m := if mp <? 10 then mp + 3 else mp - 9 in
  let y := yoe + era * 400 + (if m <=? 2 then 1 else 0) in
  (y, m, d).

(** [dt.isoformat()] of a UTC-aware datetime. *)
Definition isoformat (dt : Z) : string :=
  let day_us := 86400000000 in
  let '(y, m, d) := civil_from_days (dt / day_us) in
  let r := dt mod day_us in
  let us := r mod 1000000 in
  let secs := r / 1000000 in
  zfill_digits 4 y ++ "-" ++ zfill_digits 2 m ++ "-" ++ zfill_digits 2 d ++ "T"
  ++ zfill_digits 2 (secs / 3600) ++ ":" ++ zfill_digits 2 (secs / 60 mod 60) ++ ":"
  ++ zfill_digits 2 (secs mod 60)
  ++ (if us =? 0 then "" else "." ++ zfill_digits 6 us)
  ++ "+00:00".

End Calendar.

(** ** Outbound notifications (activity_log/notifications.py) *)

Module Notifications.
Import Py.
Import Models.
Local Open Scope py_scope.

(** The event handed to the notifier: the normalized dict with
    [occurred_at] replaced by its ISO-8601 rendering. *)
Definition event : Type := Normalizers.event_dict string.

Inductive level : Type := DEBUG | INFO | WARNING | ERROR.

(** What the code does to the outside world. *)
Inductive effect : Type :=
| LogRecord (lvl : level) (msg : string)
| HttpPost (url : string) (payload : json) (timeout_seconds : Z).

(** What one outbound POST can come to: a response, or an exception raised
    inside the [try] block (a timeout, or a transport error with its text). *)
Inductive post_outcome : Type :=
| Response (status : Z) (body : string)
| Timeout
| TransportError (msg : string).

Definition network : Type := string -> json -> post_outcome.

Definition SOURCE_COLORS : list (string * string) :=
  [ ("access", "#238636"); ("protect", "#d29922") ].

Definition ACTION_EMOJI : list (string * string) :=
  [ ("access_granted", "✅");
    ("access_denied", "🚫");
    ("door_unlocked", "🔓");
    ("door_opened", "🚪");
    ("door_closed", "🚪");
    ("door_held_open", "⚠️");
    ("doorbell_ring", "🔔");
    ("motion_detected", "👁️");
    ("smart_detect:person", "🧍");
    ("smart_detect:vehicle", "🚗");
    ("recording_event", "🎥") ].

(** [config.webhook_url] is truthy: neither NULL nor empty. *)
Definition url_set (c : ActivityWebhookConfig.t) : bool :=
  match ActivityWebhookConfig.webhook_url c with
  | Some u => negb (u =? "")%string
  | None => false
  end.

(** Check whether this event matches the notification config.  The tests
    return at the first match; [in] raises on an action that is no
    container. *)
Definition _should_notify (ev : event) (config : option ActivityWebhookConfig.t)
  : result bool :=
  match config with
  | None => Ok false
  | Some c =>
      if negb (ActivityWebhookConfig.enabled c) || negb (url_set c) then Ok false
      else
        let action := Normalizers.action ev in
        let source := Normalizers.source ev in
        if ((source =? "access")%string
            && ((eq_str action "access_granted" && ActivityWebhookConfig.event_access_granted c)
                || (eq_str action "access_denied" && ActivityWebhookConfig.event_access_denied c)
                || (eq_str action "door_held_open" && ActivityWebhookConfig.event_door_held_open c)))
        then Ok true
        else if (source =? "protect")%string then
          if eq_str action "doorbell_ring" && ActivityWebhookConfig.event_doorbell_ring c
          then Ok true
          else if eq_str action "motion_detected" && ActivityWebhookConfig.event_motion c
          then Ok true
          else
            person <- py_in "person" action ;;
            if person && ActivityWebhookConfig.event_person_detected c then Ok true
            else
              vehicle <- py_in "vehicle" action ;;
              if vehicle && ActivityWebhookConfig.event_vehicle_detected c then Ok true
              else Ok false
        else Ok false
  end.

(** [table.get(key, default)] for a table with string keys. *)
Definition table_get (table : list (string * string)) (key : json) (default : string)
  : result string :=
  match key with
  | JStr s =>
      Ok (match Normalizers.lookup_str s table with Some v => v | None => default end)
  | JList _ | JDict _ => Raise TypeError
  | _ => Ok default
  end.

(** [action.replace('_', ' ').title()] *)
Definition action_title (action : json) : result string :=
  match action with
  | JStr s => Ok (title (replace_char "_"%char " "%char s))
  | _ => Raise AttributeError
  end.

Definition nl : string := str1 (chr 10).

(** [event.get("user_name") or event.get("user_id") or "Unknown"] and
    [event.get("location") or "Unknown"] *)
Definition who (ev : event) : json :=
  py_or (Normalizers.user_name ev) (py_or (Normalizers.user_id ev) (JStr "Unknown")).

Definition where_ (ev : event) : json :=
  py_or (Normalizers.location ev) (JStr "Unknown").

Definition _format_slack (ev : event) : result json :=
  let action := Normalizers.action ev in
  let source := Normalizers.source ev in
  emoji <- table_get ACTION_EMOJI action "📋" ;;
  let color :=
    match Normalizers.lookup_str source SOURCE_COLORS with Some c => c | None => "#8b949e" end in
  heading <- action_title action ;;
  let text :=
    emoji ++ " *" ++ heading ++ "*" ++ nl
    ++ ">*Who:* " ++ str (who ev) ++ nl
    ++ ">*Where:* " ++ str (where_ ev) ++ nl
    ++ ">*Source:* " ++ title source ++ nl
    ++ ">*When:* " ++ Normalizers.occurred_at ev in
  Ok (JDict [("attachments", JList [JDict
        [("color", JStr color);
         ("blocks", JList [JDict
            [("type", JStr "section");
             ("text", JDict [("type", JStr "mrkdwn"); ("text", JStr text)])]])]])]).

Definition _format_discord (ev : event) : result json :=
  let action := Normalizers.action ev in
  let source := Normalizers.source ev in
  emoji <- table_get ACTION_EMOJI action "📋" ;;
  let color_int :=
    if (source =? "access")%string then 0x238636
    else if (source =? "protect")%string then 0xd29922
    else 0x8b949e in
  heading <- action_title action ;;
  let field (name : string) (value : json) :=
    JDict [("name", JStr name); ("value", value); ("inline", JBool true)] in
  Ok (JDict [("embeds", JList [JDict
        [("title", JStr (emoji ++ " " ++ heading));
         ("color", JInt color_int);
         ("fields", JList [field "Who" (who ev);
                           field "Where" (where_ ev);
                           field "Source" (JStr (title source))]);
         ("timestamp", JStr (Normalizers.occurred_at ev))]])]).

Definition _format_generic (ev : event) : json :=
  JDict [("event_id", JStr (Normalizers.event_id ev));
         ("source", JStr (Normalizers.source ev));
         ("action", Normalizers.action ev);
         ("user_name", Normalizers.user_name ev);
         ("user_id", Normalizers.user_id ev);
         ("location", Normalizers.location ev);
         ("occurred_at", JStr (Normalizers.occurred_at ev))].

(** The result is the returned boolean with the effects performed, in
    order; an exception can only leave before any effect. *)
Definition send_notification (net : network) (ev : event)
    (config : option ActivityWebhookConfig.t) : result (bool * list effect) :=
  fire <- _should_notify ev config ;;
  match fire, config with
  | true, Some c =>
      let wtype :=
        lower (match ActivityWebhookConfig.webhook_type c with
               | Some w => if (w =? "")%string then "generic" else w
               | None => "generic"
               end) in
      payload <- (if (wtype =? "slack")%string then _format_slack ev
                  else if (wtype =? "discord")%string then _format_discord ev
                  else Ok (_format_generic ev)) ;;
      let url := match ActivityWebhookConfig.webhook_url c with Some u => u | None => "" end in
      let post := HttpPost url payload 10 in
      match net url payload with
      | Response status body =>
          if status <? 300
          then Ok (true,
                   [post; LogRecord DEBUG ("Webhook sent for " ++ str (Normalizers.action ev)
                                           ++ " → HTTP " ++ str_of_int status)])
          else Ok (false,
                   [post; LogRecord WARNING ("Webhook HTTP " ++ str_of_int status ++ ": "
                                             ++ take 200 body)])
      | Timeout => Ok (false, [post; LogRecord ERROR "Webhook delivery failed: "])
      | TransportError msg =>
          Ok (false, [post; LogRecord ERROR ("Webhook delivery failed: " ++ msg)])
      end
  | _, _ => Ok (false, [])
  end.

End Notifications.

(** ** Router (activity_log/router.py) *)

Module Router.
Import Py.
Import Models.
Import Notifications.

(** What a handler or helper leaves behind: its return value or exception,
    the database as committed so far, and the effects performed. *)
Record outcome (A : Type) : Type := {
  returned : result A;
  db_after : database;
  effects : list effect
}.
Arguments returned {A}.
Arguments db_after {A}.
Arguments effects {A}.

(** The next autoincrement key. *)
Definition next_id (rows : list ActivityEvent.t) : Z :=
  1 + fold_right Z.max 0 (map ActivityEvent.id rows).

(** Whether [select ... where event_id == eid] finds a row. *)
Definition has_event_id (eid : string) (rows : list ActivityEvent.t) : bool :=
  existsb (fun r => (ActivityEvent.event_id r =? eid)%string) rows.

(** The dict with [occurred_at] replaced by [occurred_at.isoformat()]. *)
Definition with_iso (e : Normalizers.event_dict datetime) : Notifications.event :=
  {| Normalizers.event_id := Normalizers.event_id e;
     Normalizers.source := Normalizers.source e;
     Normalizers.event_type := Normalizers.event_type e;
     Normalizers.raw_event_type := Normalizers.raw_event_type e;
     Normalizers.user_id := Normalizers.user_id e;
     Normalizers.user_name := Normalizers.user_name e;
     Normalizers.location := Normalizers.location e;
     Normalizers.action := Normalizers.action e;
     Normalizers.metadata_json := Normalizers.metadata_json e;
     Normalizers.occurred_at := Calendar.isoformat (Normalizers.occurred_at e) |}.

(** Insert normalized event, ignore duplicates.  The uniqueness constraint
    on [event_id] leaves at most one row for the lookup to find; the insert
    is committed before the notification is attempted. *)
Definition _store_event (net : network) (now : datetime)
    (event_data : Normalizers.event_dict datetime) (db : database) : outcome unit :=
  if has_event_id (Normalizers.event_id event_data) (activity_events db)
  then {| returned := Ok tt; db_after := db; effects := [] |}
  else
    let evt := new_event (next_id (activity_events db)) now event_data in
    let db' := {| activity_events := (activity_events db ++ [evt])%list;
                  activity_webhook_config := activity_webhook_config db |} in
    let info :=
      LogRecord INFO
        ("[" ++ upper (Normalizers.source event_data) ++ "] "
         ++ str (Normalizers.action event_data) ++ " — "
         ++ str (py_or (Normalizers.user_name event_data) (Normalizers.user_id event_data))
         ++ " @ " ++ str (Normalizers.location event_data)) in
    match activity_webhook_config db' with
    | config :: _ =>
        match send_notification net (with_iso event_data) (Some config) with
        | Ok (_, effs) => {| returned := Ok tt; db_after := db'; effects := info :: effs |}
        | Raise e => {| returned := Raise e; db_after := db'; effects := [info] |}
        end
    | [] => {| returned := Ok tt; db_after := db'; effects := [info] |}
    end.

(** The body a webhook receiver answers with. *)
Record webhook_response : Type := {
  status : string;
  received : Z;
  stored : Z
}.

(** The loop over the items of one request: every item that normalizes to
    something truthy is handed to [_store_event] and counted; an exception
    ends the request and keeps what was committed before it. *)
Fixpoint store_all
    (normalize : datetime -> json -> result (option (Normalizers.event_dict datetime)))
    (net : network) (now : datetime) (events : list json) (stored : Z) (db : database)
  : outcome Z :=
  match events with
  | [] => {| returned := Ok stored; db_after := db; effects := [] |}
  | raw :: rest =>
      match normalize now raw with
      | Raise e => {| returned := Raise e; db_after := db; effects := [] |}
      | Ok None => store_all normalize net now rest stored db
      | Ok (Some normalized) =>
          let o := _store_event net now normalized db in
          match returned o with
          | Raise e => {| returned := Raise e; db_after := db_after o; effects := effects o |}
          | Ok _ =>
              let o' := store_all normalize net now rest (stored + 1) (db_after o) in
              {| returned := returned o';
                 db_after := db_after o';
                 effects := (effects o ++ effects o')%list |}
          end
      end
  end.

(** A receiver: the payload is a list of items or a single item. *)
Definition receive
    (normalize : datetime -> json -> result (option (Normalizers.event_dict datetime)))
    (net : network) (now : datetime) (payload : json) (db : database)
  : outcome webhook_response :=
  let events := match payload with JList l => l | _ => [payload] end in
  let o := store_all normalize net now events 0 db in
  {| returned :=
       match returned o with
       | Ok n => Ok {| status := "ok"; received := Z.of_nat (List.length events); stored := n |}
       | Raise e => Raise e
       end;
     db_after := db_after o;
     effects := effects o |}.

(** The receivers, from the parsed request body on. *)
Definition webhook_access := receive Normalizers.normalize_access.
Definition webhook_protect := receive Normalizers.normalize_protect.

(** One row of the correlation query; the SELECT list projects the key,
    source, user name, action, location and time of both events.  Its last
    column, [seconds_apart], is computed in floating point from Julian day
    numbers and is left out. *)
Record correlation : Type := {
  anchor : ActivityEvent.t;
  related : ActivityEvent.t
}.

(** The ON clause of the self-join.  Timestamps are compared as instants,
    and the upper end of BETWEEN, which is inclusive, is the anchor time
    advanced by [window] seconds. *)
Definition joins (window : Z) (e1 e2 : ActivityEvent.t) : bool :=
  negb (ActivityEvent.id e2 =? ActivityEvent.id e1)
  && negb (ActivityEvent.source e2 =? ActivityEvent.source e1)%string
  && (ActivityEvent.occurred_at e1 <=? ActivityEvent.occurred_at e2)
  && (ActivityEvent.occurred_at e2 <=? ActivityEvent.occurred_at e1 + window * 1000000).

Definition join_rows (window since : Z) (rows : list ActivityEvent.t) : list correlation :=
  flat_map
    (fun e1 =>
       if since <=? ActivityEvent.occurred_at e1
       then map (fun e2 => {| anchor := e1; related := e2 |})
                (filter (joins window e1) rows)
       else [])
    rows.

(** ORDER BY anchor time DESC; rows with equal anchor times keep their order. *)
Fixpoint insert_desc (c : correlation) (l : list correlation) : list correlation :=
  match l with
  | [] => [c]
  | c' :: l' =>
      if ActivityEvent.occurred_at (anchor c') <=? ActivityEvent.occurred_at (anchor c)
      then c :: l
      else c' :: insert_desc c l'
  end.

Definition order_desc (l : list correlation) : list correlation :=
  fold_right insert_desc [] l.

(** LIMIT n; a negative n does not limit. *)
Definition sql_limit {A : Type} (n : Z) (l : list A) : list A :=
  if n <? 0 then l else firstn (Z.to_nat n) l.

(** The correlate endpoint, from the validated query parameters on:
    [None] is the validation error for a parameter above its bound;
    [since] is the parsed parameter, when given. *)
Definition get_correlations (now : datetime) (window_seconds : Z)
    (since : option datetime) (limit : Z) (db : database)
  : option (Z * list correlation) :=
  if (window_seconds <=? 300) && (limit <=? 200) then
    let since_dt :=
      match since with
      | Some s => s
      | None => now - 24 * 3600 * 1000000
      end in
    Some (window_seconds,
          sql_limit limit (order_desc (join_rows window_seconds since_dt (activity_events db))))
  else None.

(** *** Webhook signatures *)

Definition is_ascii (s : string) : bool :=
  forallb (fun c => ord c <? 128) (list_ascii_of_string s).

(** [hmac.compare_digest(a, b)] on two [str]: characters outside ASCII are
    refused. *)
Definition compare_digest (a b : string) : result bool :=
  if is_ascii a && is_ascii b then Ok (a =? b)%string else Raise TypeError.

(** The body is the byte string of the request; a missing header counts as
    the empty string. *)
Definition _verify_sig (body : string) (header : option string) (secret : string)
  : result bool :=
  if (secret =? "")%string then Ok true
  else
    let expected :=
      "sha256=" ++ Hmac.hexdigest (Hmac.encode secret) (Sha1.bytes_of_string body) in
    compare_digest expected (match header with Some h => h | None => "" end).

(** What a receiver reads of a request: the bytes of the body and the two
    signature headers. *)
Record request : Type := {
  body : string;
  x_signature : option string;
  x_hub_signature_256 : option string
}.

(** [request.headers.get("X-Signature") or
    request.headers.get("X-Hub-Signature-256")] *)
Definition signature (req : request) : option string :=
  match x_signature req with
  | Some s => if (s =? "")%string then x_hub_signature_256 req else Some s
  | None => x_hub_signature_256 req
  end.

(** What a handler comes to: an outcome, or an [HTTPException] raised before
    anything was done. *)
Inductive reply (A : Type) : Type :=
| Handled (o : outcome A)
| HTTPException (status_code : Z) (detail : string).
Arguments Handled {A} o.
Arguments HTTPException {A} status_code detail.

Section Requests.

(** [request.json()] on the bytes of the body; [None] when it raises. *)
Variable loads : string -> option json.

(** A receiver from the request on; [secret] is what the environment
    holds for it, the empty string when it holds nothing. *)
Definition post_webhook
    (normalize : datetime -> json -> result (option (Normalizers.event_dict datetime)))
    (secret : string) (net : network) (now : datetime) (req : request) (db : database)
  : reply webhook_response :=
  match _verify_sig (body req) (signature req) secret with
  | Raise e => Handled {| returned := Raise e; db_after := db; effects := [] |}
  | Ok false => HTTPException 401 "Invalid signature"
  | Ok true =>
      match loads (body req) with
      | None => HTTPException 400 "Invalid JSON"
      | Some payload => Handled (receive normalize net now payload db)
      end
  end.

Definition post_webhooks_access := post_webhook Normalizers.normalize_access.
Definition post_webhooks_protect := post_webhook Normalizers.normalize_protect.

End Requests.

(** *** Settings *)

(** The first settings row; a table without one gets a row of column
    defaults, committed, under the first key of an empty table. *)
Definition _get_or_create_webhook_config (db : database)
  : ActivityWebhookConfig.t * database :=
  match activity_webhook_config db with
  | config :: _ => (config, db)
  | [] =>
      let config := ActivityWebhookConfig.default 1 in
      (config, {| activity_events := activity_events db;
                  activity_webhook_config := [config] |})
  end.

Definition get_settings (db : database) : outcome json :=
  let (config, db') := _get_or_create_webhook_config db in
  {| returned := Ok (ActivityWebhookConfig.to_dict config); db_after := db'; effects := [] |}.

(** The keys [update_settings] lets a request set. *)
Definition allowed : list string :=
  [ "enabled"; "webhook_url"; "webhook_type";
    "event_access_granted"; "event_access_denied"; "event_door_held_open";
    "event_person_detected"; "event_vehicle_detected";
    "event_doorbell_ring"; "event_motion" ].

(** What a column holds, once committed and read back, after a value of
    its own type was assigned: a boolean in a Boolean column, a string or
    [None] in a text column.  What the mapper and the engine make of a
    value of another type is not modelled ([None]). *)
Definition as_flag (val : json) : option bool :=
  match val with JBool b => Some b | _ => None end.

Definition as_text (val : json) : option (option string) :=
  match val with
  | JStr s => Some (Some s)
  | JNull => Some None
  | _ => None
  end.

Definition and_then {A B : Type} (m : option A) (k : A -> option B) : option B :=
  match m with Some a => k a | None => None end.

(** [setattr(config, key, val)] for an allow-listed [key]. *)
Definition setattr (c : ActivityWebhookConfig.t) (key : string) (val : json)
  : option ActivityWebhookConfig.t :=
  let flag (name : string) (old : bool) : option bool :=
    if (key =? name)%string then as_flag val else Some old in
  let text (name : string) (old : option string) : option (option string) :=
    if (key =? name)%string then as_text val else Some old in
  and_then (flag "enabled" (ActivityWebhookConfig.enabled c)) (fun enabled =>
  and_then (text "webhook_url" (ActivityWebhookConfig.webhook_url c)) (fun url =>
  and_then (text "webhook_type" (ActivityWebhookConfig.webhook_type c)) (fun type =>
  and_then (flag "event_access_granted" (ActivityWebhookConfig.event_access_granted c))
    (fun granted =>
  and_then (flag "event_access_denied" (ActivityWebhookConfig.event_access_denied c))
    (fun denied =>
  and_then (flag "event_door_held_open" (ActivityWebhookConfig.event_door_held_open c))
    (fun held =>
  and_then (flag "event_person_detected" (ActivityWebhookConfig.event_person_detected c))
    (fun person =>
  and_then (flag "event_vehicle_detected" (ActivityWebhookConfig.event_vehicle_detected c))
    (fun vehicle =>
  and_then (flag "event_doorbell_ring" (ActivityWebhookConfig.event_doorbell_ring c))
    (fun ring =>
  and_then (flag "event_motion" (ActivityWebhookConfig.event_motion c)) (fun motion =>
  Some {| ActivityWebhookConfig.id := ActivityWebhookConfig.id c;
          ActivityWebhookConfig.enabled := enabled;
          ActivityWebhookConfig.webhook_url := url;
          ActivityWebhookConfig.webhook_type := type;
          ActivityWebhookConfig.event_access_granted := granted;
          ActivityWebhookConfig.event_access_denied := denied;
          ActivityWebhookConfig.event_door_held_open := held;
          ActivityWebhookConfig.event_person_detected := person;
          ActivityWebhookConfig.event_vehicle_detected := vehicle;
          ActivityWebhookConfig.event_doorbell_ring := ring;
          ActivityWebhookConfig.event_motion := motion |})))))))))).

(** The loop over [body.items()]: a key outside the allow-list is skipped. *)
Fixpoint assign (c : ActivityWebhookConfig.t) (pairs : list (string * json))
  : option ActivityWebhookConfig.t :=
  match pairs with
  | [] => Some c
  | (key, val) :: rest =>
      if existsb (String.eqb key) allowed
      then and_then (setattr c key val) (fun c' => assign c' rest)
      else assign c rest
  end.

(** The update endpoint, from the parsed request body on.  The settings
    row is fetched, or created and committed, before the body is looked
    at; a body that is not an object has no [items]. *)
Definition update_settings (body : json) (db : database) : option (outcome json) :=
  let (config, db') := _get_or_create_webhook_config db in
  match body with
  | JDict pairs =>
      and_then (assign config pairs) (fun config' =>
      Some {| returned := Ok (ActivityWebhookConfig.to_dict config');
              db_after :=
                {| activity_events := activity_events db';
                   activity_webhook_config := config' :: tl (activity_webhook_config db') |};
              effects := [] |})
  | _ => Some {| returned := Raise AttributeError; db_after := db'; effects := [] |}
  end.

(** *** Event queries *)

(** SQL [LIKE] without an escape character: [%] stands for any run of
    characters, [_] for any one character, and any other character for
    itself in either letter case. *)
Fixpoint like (pattern s : string) : bool :=
  match pattern with
  | EmptyString => match s with EmptyString => true | _ => false end
  | String p pattern' =>
      if Ascii.eqb p "%" then
        (fix skip (t : string) : bool :=
           like pattern' t
           || match t with EmptyString => false | String _ t' => skip t' end) s
      else
        match s with
        | EmptyString => false
        | String c s' =>
            (Ascii.eqb p "_" || Ascii.eqb (to_lower p) (to_lower c)) && like pattern' s'
        end
  end.

(** ORDER BY [occurred_at] DESC; rows with equal times keep their order. *)
Fixpoint insert_newest (r : ActivityEvent.t) (l : list ActivityEvent.t)
  : list ActivityEvent.t :=
  match l with
  | [] => [r]
  | r' :: l' =>
      if ActivityEvent.occurred_at r' <=? ActivityEvent.occurred_at r
      then r :: l
      else r' :: insert_newest r l'
  end.

Definition newest_first (l : list ActivityEvent.t) : list ActivityEvent.t :=
  fold_right insert_newest [] l.

(** OFFSET n; a negative n skips nothing. *)
Definition sql_offset {A : Type} (n : Z) (l : list A) : list A :=
  skipn (Z.to_nat n) l.

(** The body the query endpoint answers with; [events] holds the rows that
    [to_dict] renders. *)
Record page : Type := {
  total : Z;
  limit : Z;
  offset : Z;
  events : list ActivityEvent.t
}.

Section Engine.

(** The text the engine holds in a text column for a stored value that is
    neither a string nor [None]; [None] for NULL. *)
Variable stored_text : json -> option string.

Definition column_text (v : json) : option string :=
  match v with
  | JStr s => Some s
  | JNull => None
  | _ => stored_text v
  end.

(** [column.ilike(f"%{x}%")]: both sides lower-cased, then LIKE; NULL
    matches nothing. *)
Definition ilike (x : string) (v : json) : bool :=
  match column_text v with
  | Some s => like (lower ("%" ++ x ++ "%")) (lower s)
  | None => false
  end.

(** A filter applies when its parameter is given and not empty. *)
Definition when_given (parameter : option string) (test : string -> bool) : bool :=
  match parameter with
  | Some x => if (x =? "")%string then true else test x
  | None => true
  end.

Definition selected (source action user_id location : option string)
    (since until : option datetime) (r : ActivityEvent.t) : bool :=
  when_given source (fun x => (ActivityEvent.source r =? x)%string)
  && when_given action (fun x => ilike x (ActivityEvent.action r))
  && when_given user_id (fun x => ilike x (ActivityEvent.user_id r))
  && when_given location (fun x => ilike x (ActivityEvent.location r))
  && match since with Some t => t <=? ActivityEvent.occurred_at r | None => true end
  && match until with Some t => ActivityEvent.occurred_at r <=? t | None => true end.

(** The query endpoint, from the validated query parameters on: [None] is
    the validation error for a limit above its bound; [since] and [until]
    are the parsed parameters, when given and not empty. *)
Definition get_events (source action user_id location : option string)
    (since until : option datetime) (limit offset : Z) (db : database) : option page :=
  if limit <=? 1000 then
    let found :=
      filter (selected source action user_id location since until) (activity_events db) in
    Some {| total := Z.of_nat (List.length found);
            limit := limit;
            offset := offset;
            events := sql_limit limit (sql_offset offset (newest_first found)) |}
  else None.

End Engine.

End Router.

(** ** Vocabulary of the properties *)

Module Props.
Import Py.
Import Models.
Import Notifications.
Import Router.

(** *** Identifiers *)

Definition is_lower_hex (c : ascii) : bool := existsb (Ascii.eqb c) hexchars.

Fixpoint all_chars (p : ascii -> bool) (s : string) : bool :=
  match s with
  | EmptyString => true
  | String c s' => p c && all_chars p s'
  end.

(** *** The event store *)

Definition event_ids (db : database) : list string :=
  map ActivityEvent.event_id (activity_events db).

(** The uniqueness constraint on [event_id]. *)
Definition unique_event_ids (db : database) : Prop := NoDup (event_ids db).


(** *** The notification policy *)

(** The boolean switches of the policy record. *)
Inductive switch : Type :=
| AccessGranted
| AccessDenied
| DoorHeldOpen
| PersonDetected
| VehicleDetected
| DoorbellRing
| Motion.

Definition all_switches : list switch :=
  [AccessGranted; AccessDenied; DoorHeldOpen; PersonDetected; VehicleDetected;
   DoorbellRing; Motion].

Definition switch_eqb (s1 s2 : switch) : bool :=
  match s1, s2 with
  | AccessGranted, AccessGranted | AccessDenied, AccessDenied
  | DoorHeldOpen, DoorHeldOpen | PersonDetected, PersonDetected
  | VehicleDetected, VehicleDetected | DoorbellRing, DoorbellRing
  | Motion, Motion => true
  | _, _ => false
  end.

Definition switch_value (c : ActivityWebhookConfig.t) (sw : switch) : bool :=
  match sw with
  | AccessGranted => ActivityWebhookConfig.event_access_granted c
  | AccessDenied => ActivityWebhookConfig.event_access_denied c
  | DoorHeldOpen => ActivityWebhookConfig.event_door_held_open c
  | PersonDetected => ActivityWebhookConfig.event_person_detected c
  | VehicleDetected => ActivityWebhookConfig.event_vehicle_detected c
  | DoorbellRing => ActivityWebhookConfig.event_doorbell_ring c
  | Motion => ActivityWebhookConfig.event_motion c
  end.

(** The policy with one switch set to [v], every other field kept. *)
Definition set_switch (sw : switch) (v : bool) (c : ActivityWebhookConfig.t)
  : ActivityWebhookConfig.t :=
  let pick (s : switch) := if switch_eqb s sw then v else switch_value c s in
  {| ActivityWebhookConfig.id := ActivityWebhookConfig.id c;
     ActivityWebhookConfig.enabled := ActivityWebhookConfig.enabled c;
     ActivityWebhookConfig.webhook_url := ActivityWebhookConfig.webhook_url c;
     ActivityWebhookConfig.webhook_type := ActivityWebhookConfig.webhook_type c;
     ActivityWebhookConfig.event_access_granted := pick AccessGranted;
     ActivityWebhookConfig.event_access_denied := pick AccessDenied;
     ActivityWebhookConfig.event_door_held_open := pick DoorHeldOpen;
     ActivityWebhookConfig.event_person_detected := pick PersonDetected;
     ActivityWebhookConfig.event_vehicle_detected := pick VehicleDetected;
     ActivityWebhookConfig.event_doorbell_ring := pick DoorbellRing;
     ActivityWebhookConfig.event_motion := pick Motion |}.

Definition flip (sw : switch) (c : ActivityWebhookConfig.t) : ActivityWebhookConfig.t :=
  set_switch sw (negb (switch_value c sw)) c.

(** Which switch is registered for a (source, action-class) pair: equality
    on the slug for the plain actions, containment of the sub-tag for smart
    detections. *)
Definition registered (source action : string) (sw : switch) : bool :=
  match sw with
  | AccessGranted => (source =? "access")%string && (action =? "access_granted")%string
  | AccessDenied => (source =? "access")%string && (action =? "access_denied")%string
  | DoorHeldOpen => (source =? "access")%string && (action =? "door_held_open")%string
  | DoorbellRing => (source =? "protect")%string && (action =? "doorbell_ring")%string
  | Motion => (source =? "protect")%string && (action =? "motion_detected")%string
  | PersonDetected => (source =? "protect")%string && contains "person" action
  | VehicleDetected => (source =? "protect")%string && contains "vehicle" action
  end.

(** The switches other than [sw] that are registered, per [r], and on. *)
Definition others_on (r : switch -> bool) (c : ActivityWebhookConfig.t) (sw : switch) : bool :=
  existsb (fun s => negb (switch_eqb s sw) && (r s && switch_value c s)) all_switches.

(** *** Delivery *)

Definition posts (effs : list effect) : list (string * json) :=
  flat_map (fun e => match e with HttpPost u p _ => [(u, p)] | _ => [] end) effs.



(** *** Payload shapes *)

(** The value under key [k] of a dict, or [default]. *)
Definition field (d : list (string * json)) (k : string) (default : json) : json :=
  match lookup k d with Some v => v | None => default end.

(** The vendor event type each normalizer reads. *)
Definition access_type (d : list (string * json)) : json :=
  py_or (field d "event" JNull) (py_or (field d "type" JNull) (JStr "unknown")).
Definition protect_type (d : list (string * json)) : json :=
  py_or (field d "type" JNull) (py_or (field d "event" JNull) (JStr "unknown")).

(** The nested data, or the payload itself. *)
Definition data_of (d : list (string * json)) : json := field d "data" (JDict d).

Definition hashable (v : json) : bool :=
  match v with JList _ | JDict _ => false | _ => true end.

(** What [str.join] accepts: an iterable that yields strings only. *)
Definition joinable (v : json) : bool :=
  match v with
  | JStr _ | JDict _ => true
  | JList l => forallb is_str l
  | _ => false
  end.

(** The payloads the access normalizer is written for: the event type is a
    string, and [data], [actor] and [door] are objects where present. *)
Definition access_shape (d : list (string * json)) : bool :=
  match data_of d with
  | JDict dd =>
      is_dict (field dd "actor" (JDict []))
      && is_dict (field dd "door" (JDict []))
      && is_str (access_type d)
  | _ => false
  end.

(** The payloads the protect normalizer is written for: [data] is an
    object, and either the smart-detect types are empty and the event type
    is a string, or they are a sequence of strings and the event type is
    hashable. *)
Definition protect_shape (d : list (string * json)) : bool :=
  match data_of d with
  | JDict dd =>
      let smart := field dd "smartDetectTypes" (JList []) in
      if truthy smart then hashable (protect_type d) && joinable smart
      else is_str (protect_type d)
  | _ => false
  end.

(** A fully populated canonical event: the identifier, the source, the
    category and the action are non-empty strings. *)
Definition valid_event (e : Normalizers.event_dict datetime) : bool :=
  negb (Normalizers.event_id e =? "")%string
  && negb (Normalizers.source e =? "")%string
  && negb (Normalizers.event_type e =? "")%string
  && match Normalizers.action e with
     | JStr a => negb (a =? "")%string
     | _ => false
     end.

(** *** Keys and the clock *)


Definition access_timestamp (d : list (string * json)) : json :=
  match data_of d with
  | JDict dd => py_or (field dd "timestamp" JNull) (field d "timestamp" JNull)
  | _ => JNull
  end.

Definition protect_timestamp (d : list (string * json)) : json :=
  match data_of d with
  | JDict dd =>
      py_or (field dd "start" JNull)
        (py_or (field dd "timestamp" JNull) (field d "timestamp" JNull))
  | _ => JNull
  end.




Definition empty_db : database :=
  {| activity_events := []; activity_webhook_config := [] |}.

(** *** Requests, rows and traces *)

(** The items of a request body: the elements of a list, or the one body. *)
Definition items (payload : json) : list json :=
  match payload with JList l => l | _ => [payload] end.

(** The primary keys of the stored rows. *)
Definition row_ids (db : database) : list Z :=
  map ActivityEvent.id (activity_events db).

Definition is_info (e : effect) : bool :=
  match e with LogRecord INFO _ => true | _ => false end.

(** How many INFO records a trace holds. *)
Definition info_records (effs : list effect) : nat :=
  List.length (filter is_info effs).

(** The destination of the first settings row, as the deliverer reads it. *)
Definition policy_url (db : database) : string :=
  match activity_webhook_config db with
  | c :: _ => match ActivityWebhookConfig.webhook_url c with Some u => u | None => "" end
  | [] => ""
  end.

(** The smart-detect tags of a protect payload. *)
Definition smart_types (d : list (string * json)) : json :=
  match data_of d with
  | JDict dd => field dd "smartDetectTypes" (JList [])
  | _ => JNull
  end.

(** Whether some tag contains [word]. *)
Definition tagged (word : string) (tags : list json) : bool :=
  existsb (fun t => contains word (str t)) tags.


(** *** Settings *)

(** The request key of a switch. *)
Definition switch_key (sw : switch) : string :=
  match sw with
  | AccessGranted => "event_access_granted"
  | AccessDenied => "event_access_denied"
  | DoorHeldOpen => "event_door_held_open"
  | PersonDetected => "event_person_detected"
  | VehicleDetected => "event_vehicle_detected"
  | DoorbellRing => "event_doorbell_ring"
  | Motion => "event_motion"
  end.

(** The settings row the endpoints work on: the first one, or the row of
    defaults they create. *)
Definition current_policy (db : database) : ActivityWebhookConfig.t :=
  fst (_get_or_create_webhook_config db).

Definition is_allowed (kv : string * json) : bool :=
  existsb (String.eqb (fst kv)) allowed.

(** *** Signatures *)

(** The header value a signed request carries. *)
Definition signature_tag (secret body : string) : string :=
  "sha256=" ++ Hmac.hexdigest (Hmac.encode secret) (Sha1.bytes_of_string body).

(** *** Queries *)

(** Newest row first. *)
Definition not_older (r1 r2 : ActivityEvent.t) : Prop :=
  ActivityEvent.occurred_at r2 <= ActivityEvent.occurred_at r1.

(** [x] occurs in [s], letter case aside. *)
Definition within (x s : string) : Prop :=
  exists before after, lower s = before ++ lower x ++ after.

(** A text column that holds a text that is not empty. *)
Definition has_text (text : option string) : bool :=
  match text with
  | Some s => negb (s =? "")%string
  | None => false
  end.

End Props.

(** ** Sample inputs *)

Module Examples.
Import Py Normalizers Models Notifications Router Props.


(** An access-granted delivery that carries its own id. *)
Definition d_granted : list (string * json) :=
  [("event", JStr "access.logs.add");
   ("data", JDict [("id", JStr "evt-1");
                   ("timestamp", JInt 1700000000123);
                   ("actor", JDict [("id", JStr "u1"); ("display_name", JStr "Alice")]);
                   ("door", JDict [("name", JStr "Front")])])].

(** A person detection. *)
Definition d_person : list (string * json) :=
  [("type", JStr "smartDetectZone");
   ("data", JDict [("camera", JStr "cam-7"); ("start", JInt 1700000045000);
                   ("smartDetectTypes", JList [JStr "person"])])].

(** Timestamps given as ISO-8601 text. *)
Definition p_iso_access : json :=
  JDict [("event", JStr "access.logs.add"); ("timestamp", JStr "2024-01-01T00:00:00Z")].
Definition p_iso_protect : json :=
  JDict [("type", JStr "motion"); ("data", JDict [("start", JStr "2024-01-01T00:00:00Z")])].

(** A vendor type that neither table knows. *)
Definition p_custom_access : json := JDict [("event", JStr "custom.event")].
Definition p_custom_protect : json := JDict [("type", JStr "custom.event")].

(** What [d_granted] normalizes to, at any clock reading. *)
Definition e_granted : event_dict datetime :=
  {| event_id := "evt-1";
     source := "access";
     event_type := "physical_access";
     raw_event_type := JStr "access.logs.add";
     user_id := JStr "u1";
     user_name := JStr "Alice";
     location := JStr "Front";
     action := JStr "access_granted";
     metadata_json := JDict d_granted;
     occurred_at := 1700000000123000 |}.

(** What [d_person] normalizes to, at any clock reading. *)
Definition e_person : event_dict datetime :=
  {| event_id := _dedup_id "prot" [JStr "cam-7"; JStr "smartDetectZone"; JInt 1700000045];
     source := "protect";
     event_type := "video_event";
     raw_event_type := JStr "smartDetectZone";
     user_id := JStr "cam-7";
     user_name := JStr "cam-7";
     location := JStr "cam-7";
     action := JStr "smart_detect:person";
     metadata_json := JDict d_person;
     occurred_at := 1700000045000000 |}.





(** An access denial and, 45 seconds later, a person detection. *)
Definition row_denied_first : ActivityEvent.t :=
  {| ActivityEvent.id := 1;
     ActivityEvent.event_id := "evt-denied";
     ActivityEvent.source := "access";
     ActivityEvent.event_type := "physical_access";
     ActivityEvent.raw_event_type := JStr "access.logs.denied";
     ActivityEvent.user_id := JStr "u2";
     ActivityEvent.user_name := JStr "Bob";
     ActivityEvent.location := JStr "Front";
     ActivityEvent.action := JStr "access_denied";
     ActivityEvent.metadata_json := JDict [("event", JStr "access.logs.denied")];
     ActivityEvent.occurred_at := 1700000000000000;
     ActivityEvent.received_at := 1700000000200000 |}.

Definition row_person_later : ActivityEvent.t :=
  new_event 2 1700000045300000 e_person.

Definition db_tailgate : database :=
  {| activity_events := [row_denied_first; row_person_later];
     activity_webhook_config := [] |}.


(** A policy that is enabled, has a destination, and has the person and
    vehicle switches on. *)
Definition cfg_both : ActivityWebhookConfig.t :=
  {| ActivityWebhookConfig.id := 1;
     ActivityWebhookConfig.enabled := true;
     ActivityWebhookConfig.webhook_url := Some "https://hooks.example/activity";
     ActivityWebhookConfig.webhook_type := Some "slack";
     ActivityWebhookConfig.event_access_granted := true;
     ActivityWebhookConfig.event_access_denied := true;
     ActivityWebhookConfig.event_door_held_open := false;
     ActivityWebhookConfig.event_person_detected := true;
     ActivityWebhookConfig.event_vehicle_detected := true;
     ActivityWebhookConfig.event_doorbell_ring := true;
     ActivityWebhookConfig.event_motion := false |}.

(** A detection tagged with two smart-detect types. *)
Definition ev_person_vehicle : Notifications.event :=
  {| event_id := "evt-pv";
     source := "protect";
     event_type := "video_event";
     raw_event_type := JStr "smartDetectZone";
     user_id := JStr "cam-7";
     user_name := JStr "Driveway";
     location := JStr "Driveway";
     action := JStr "smart_detect:person,vehicle";
     metadata_json := JDict [];
     occurred_at := "2023-11-14T22:13:20+00:00" |}.

(** The same policy with only the person switch on. *)
Definition cfg_person_only : ActivityWebhookConfig.t :=
  {| ActivityWebhookConfig.id := 1;
     ActivityWebhookConfig.enabled := true;
     ActivityWebhookConfig.webhook_url := Some "https://hooks.example/activity";
     ActivityWebhookConfig.webhook_type := Some "discord";
     ActivityWebhookConfig.event_access_granted := false;
     ActivityWebhookConfig.event_access_denied := false;
     ActivityWebhookConfig.event_door_held_open := false;
     ActivityWebhookConfig.event_person_detected := true;
     ActivityWebhookConfig.event_vehicle_detected := false;
     ActivityWebhookConfig.event_doorbell_ring := false;
     ActivityWebhookConfig.event_motion := false |}.

(** Payloads outside the shapes the normalizers are written for. *)
Definition d_type_int : list (string * json) := [("event", JInt 5); ("type", JInt 5)].

Definition net_ok : network := fun _ _ => Response 200 "ok".
Definition net_down : network := fun _ _ => TransportError "connection refused".

(** A protect event whose action is a number, as [d_type_int] normalizes
    to, and a store whose policy is on. *)
Definition e_numeric : event_dict datetime :=
  {| event_id := "evt-odd";
     source := "protect";
     event_type := "video_event";
     raw_event_type := JInt 5;
     user_id := JNull;
     user_name := JNull;
     location := JNull;
     action := JInt 5;
     metadata_json := JDict d_type_int;
     occurred_at := 1700000000000000 |}.

Definition db_policy_on : database :=
  {| activity_events := []; activity_webhook_config := [cfg_both] |}.

(** One request with the same delivery twice. *)
Definition p_twice : json := JList [JDict d_granted; JDict d_granted].


(** What the update endpoint answers when it is asked to set the key, the
    channel and a key it does not know. *)
Definition cfg_discord : ActivityWebhookConfig.t :=
  {| ActivityWebhookConfig.id := 1;
     ActivityWebhookConfig.enabled := true;
     ActivityWebhookConfig.webhook_url := Some "https://hooks.example/activity";
     ActivityWebhookConfig.webhook_type := Some "discord";
     ActivityWebhookConfig.event_access_granted := true;
     ActivityWebhookConfig.event_access_denied := true;
     ActivityWebhookConfig.event_door_held_open := false;
     ActivityWebhookConfig.event_person_detected := true;
     ActivityWebhookConfig.event_vehicle_detected := true;
     ActivityWebhookConfig.event_doorbell_ring := true;
     ActivityWebhookConfig.event_motion := false |}.

Definition o_renamed : outcome json :=
  {| returned := Ok (ActivityWebhookConfig.to_dict cfg_discord);
     db_after := {| activity_events := []; activity_webhook_config := [cfg_discord] |};
     effects := [] |}.

(** The signature of the body [{}] under the secret [s3cret]. *)
Definition sig_empty_object : string :=
  "sha256=adbde1ce40c89c14215687d5d762a47df6dfaefcfad61e2e86718ffc8498571b".

(** An engine that holds numbers and booleans as their decimal text. *)
Definition sqlite_text (v : json) : option string :=
  match v with
  | JInt z => Some (str_of_int z)
  | JBool b => Some (if b then "1" else "0")
  | _ => None
  end.





End Examples.

(** * Properties *)

Example sha1_abc : Sha1.hexdigest "abc" = "a9993e364706816aba3e25717850c26c9cd0d89d".
Proof. vm_compute. reflexivity. Qed.

Example sha1_empty : Sha1.hexdigest "" = "da39a3ee5e6b4b0d3255bfef95601890afd80709".
Proof. vm_compute. reflexivity. Qed.

Example sha1_long :
  Sha1.hexdigest "abcdbcdecdefdefgefghfghighijhijkijkljklmklmnlmnomnopnopq"
  = "84983e441c3bd26ebaae4aa1f95129e5e54670f1".
Proof. vm_compute. reflexivity. Qed.

Example repr_demo :
  Py.repr (Py.JList [Py.JInt (-5); Py.JStr "a"; Py.JNull; Py.JDict [("k", Py.JBool true)]])
  = "[-5, 'a', None, {'k': True}]".
Proof. vm_compute. reflexivity. Qed.

Example title_of_slug :
  Py.title (Py.replace_char "_" " " "smart_detect:person") = "Smart Detect:Person".
Proof. vm_compute. reflexivity. Qed.

Example int_demo :
  Py.int (Py.JStr " 1_700 ") = Py.Ok 1700
  /\ Py.int (Py.JStr "-0012") = Py.Ok (-12)
  /\ Py.int (Py.JStr "5__6") = Py.Raise Py.ValueError
  /\ Py.int (Py.JStr "2024-01-01T00:00:00Z") = Py.Raise Py.ValueError.
Proof. vm_compute. repeat split. Qed.

Example strip_demo : Py.strip "  a b  " = "a b".
Proof. vm_compute. reflexivity. Qed.

Example title_demo : Py.title "access granted" = "Access Granted".
Proof. vm_compute. reflexivity. Qed.

Example isoformat_demo :
  Calendar.isoformat 1704067200000000 = "2024-01-01T00:00:00+00:00"
  /\ Calendar.isoformat 1700000000123000 = "2023-11-14T22:13:20.123000+00:00"
  /\ Calendar.isoformat (-1) = "1969-12-31T23:59:59.999999+00:00"
  /\ Calendar.isoformat 951782400000000 = "2000-02-29T00:00:00+00:00".
Proof. vm_compute. repeat split. Qed.

(** ** The scenarios of the specification *)

Section Scenarios.
Import Py Normalizers Models Notifications Router Props Examples.

(** An access-granted payload with an epoch-millisecond timestamp for Alice
    at the front door is stored with that instant and the action
    [access_granted]. *)
Example scenario_access_granted :
  forall now,
    normalize_access now (JDict d_granted) = Ok (Some e_granted)
    /\ Calendar.isoformat (occurred_at e_granted) = "2023-11-14T22:13:20.123000+00:00".
Proof. intros now. split; reflexivity. Qed.

(** A smart-detect payload for a person gets the action
    [smart_detect:person]; with the person switch on and the policy enabled
    the matcher fires and one POST is made. *)
Example scenario_person_detected :
  forall now,
    normalize_protect now (JDict d_person) = Ok (Some e_person)
    /\ _should_notify (with_iso e_person) (Some cfg_person_only) = Ok true
    /\ exists payload msg,
        send_notification net_ok (with_iso e_person) (Some cfg_person_only)
        = Ok (true, [HttpPost "https://hooks.example/activity" payload 10;
                     LogRecord DEBUG msg]).
Proof.
  intros now. split; [reflexivity|]. split; [reflexivity|].
  eexists. eexists. vm_compute. reflexivity.
Qed.

(** A denial at T and a person detection at T + 45 s: a window of 60 s
    gives one pair, a window of 30 s gives none. *)
Example scenario_tailgate :
  forall now,
    get_correlations now 60 (Some 0) 50 db_tailgate
    = Some (60, [ {| anchor := row_denied_first; related := row_person_later |} ])
    /\ get_correlations now 30 (Some 0) 50 db_tailgate = Some (30, [])
    /\ ActivityEvent.occurred_at row_person_later
       - ActivityEvent.occurred_at row_denied_first = 45 * 1000000.
Proof. intros now. repeat split; vm_compute; reflexivity. Qed.

End Scenarios.

(** ** Synthesized identifiers *)

Section DedupId.
Import Py Normalizers Models Notifications Router Props Examples.

Lemma length_take (n : nat) (s : string) :
  (n <= String.length s)%nat -> String.length (take n s) = n.
Proof.
  revert s; induction n as [|n IH]; intros [|c s] H; simpl in *;
    try reflexivity; try lia.
  f_equal; apply IH; lia.
Qed.


Lemma hex_digit_lower_hex (n : Z) : is_lower_hex (hex_digit n) = true.
Proof.
  unfold hex_digit.
  generalize (Z.to_nat n); intros k.
  do 16 (destruct k as [|k]; [reflexivity|]).
  destruct k; reflexivity.
Qed.

Lemma hex_of_bytes_lower_hex (bs : list Z) :
  all_chars is_lower_hex (Sha1.hex_of_bytes bs) = true.
Proof.
  induction bs as [|b bs IH]; simpl; auto.
  now rewrite !hex_digit_lower_hex.
Qed.

Lemma length_hex_of_bytes (bs : list Z) :
  String.length (Sha1.hex_of_bytes bs) = (2 * List.length bs)%nat.
Proof.
  induction bs as [|b bs IH]; simpl; auto.
  rewrite IH; lia.
Qed.

Lemma length_digest (msg : list Z) : List.length (Sha1.digest msg) = 20%nat.
Proof.
  unfold Sha1.digest.
  destruct (fst _) as [[[[h0 h1] h2] h3] h4].
  reflexivity.
Qed.

Lemma length_hexdigest (s : string) : String.length (Sha1.hexdigest s) = 40%nat.
Proof.
  unfold Sha1.hexdigest. now rewrite length_hex_of_bytes, length_digest.
Qed.


End DedupId.

(** ** Stepping through a normalizer *)

Section Steps.
Import Py Normalizers Models Notifications Router Props Examples.

Lemma get_dict d k : get (JDict d) k = Ok (field d k JNull).
Proof. reflexivity. Qed.

Lemma get_default_dict d k v : get_default (JDict d) k v = Ok (field d k v).
Proof. reflexivity. Qed.

Lemma or_else_Ok a b : or_else (Ok a) (Ok b) = Ok (py_or a b).
Proof. unfold or_else, py_or. simpl. now destruct (truthy a). Qed.

End Steps.

(** Rewrite the lookups on a dict and the [or] chains on their results. *)
Ltac norm_gets :=
  repeat (progress (rewrite ?get_dict, ?get_default_dict, ?or_else_Ok; cbn [Py.bind])).


(** ** Keys that do not depend on the clock *)

Section ClockFree.
Import Py Normalizers Models Notifications Router Props Examples.
Local Open Scope py_scope.




End ClockFree.

(** ** The store *)

Section Store.
Import Py Normalizers Models Notifications Router Props Examples.

Lemma has_event_id_In (eid : string) (rows : list ActivityEvent.t) :
  has_event_id eid rows = true <-> In eid (map ActivityEvent.event_id rows).
Proof.
  unfold has_event_id. rewrite existsb_exists, in_map_iff.
  split; intros [r [H1 H2]]; exists r.
  - apply String.eqb_eq in H2. auto.
  - split; [tauto|]. apply String.eqb_eq. tauto.
Qed.


(** Whatever the notifier does, the rows after a store are the rows before,
    plus one new row when the key was free. *)
Lemma store_rows net now e db :
  activity_events (db_after (_store_event net now e db))
  = (activity_events db
     ++ (if has_event_id (event_id e) (activity_events db) then []
         else [new_event (next_id (activity_events db)) now e]))%list
  /\ activity_webhook_config (db_after (_store_event net now e db))
     = activity_webhook_config db.
Proof.
  unfold _store_event.
  destruct (has_event_id _ _); simpl.
  - now rewrite app_nil_r.
  - destruct (activity_webhook_config db) as [|c cs]; simpl; auto.
    destruct (send_notification _ _ _) as [[b effs]|x]; simpl; auto.
Qed.


Lemma store_unique net now e db :
  unique_event_ids db -> unique_event_ids (db_after (_store_event net now e db)).
Proof.
  unfold unique_event_ids, event_ids. intros U.
  destruct (store_rows net now e db) as [-> _].
  destruct (has_event_id (event_id e) (activity_events db)) eqn:H.
  - now rewrite app_nil_r.
  - rewrite map_app. simpl.
    apply NoDup_app; auto.
    + constructor; [intros []|constructor].
    + intros x Hx [<-|[]]. simpl in Hx.
      apply has_event_id_In in Hx. congruence.
Qed.







End Store.

(** ** The webhook receivers *)

Section Receivers.
Import Py Normalizers Models Notifications Router Props Examples.

(** C3.  The [stored] count of a receiver counts every normalized item,
    whether or not it was newly persisted: sending the identical payload a
    second time answers [received = 1] and [stored = 1], although the
    database is unchanged and holds a single record.  This holds of both
    receivers. *)
Theorem webhook_resend_counts_duplicate :
  forall net1 net2 now1 now2,
    let o1 := webhook_access net1 now1 (JDict d_granted) empty_db in
    let o2 := webhook_access net2 now2 (JDict d_granted) (db_after o1) in
    let p1 := webhook_protect net1 now1 (JDict d_person) empty_db in
    let p2 := webhook_protect net2 now2 (JDict d_person) (db_after p1) in
    (returned o1 = Ok {| status := "ok"; received := 1; stored := 1 |}
     /\ returned o2 = Ok {| status := "ok"; received := 1; stored := 1 |}
     /\ db_after o2 = db_after o1
     /\ List.length (activity_events (db_after o2)) = 1%nat)
    /\ (returned p1 = Ok {| status := "ok"; received := 1; stored := 1 |}
        /\ returned p2 = Ok {| status := "ok"; received := 1; stored := 1 |}
        /\ db_after p2 = db_after p1
        /\ List.length (activity_events (db_after p2)) = 1%nat).
Proof.
  intros net1 net2 now1 now2. vm_compute. repeat split.
Qed.

End Receivers.

(** ** Timestamps and actions *)

Section Fields.
Import Py Normalizers Models Notifications Router Props Examples.

(** C4.  A timestamp given as epoch milliseconds becomes that instant, but a
    timestamp given as ISO-8601 text is not parsed: [_ts_to_dt] answers the
    clock reading, and both normalizers return [occurred_at = now] for such
    a payload, whatever [now] is (the text names the instant 1704067200 s
    after the epoch). *)
Theorem iso_timestamp_falls_back_to_clock :
  forall now,
    _ts_to_dt now (JInt 1704067200000) = 1704067200000000
    /\ _ts_to_dt now (JStr "2024-01-01T00:00:00Z") = now
    /\ (exists e, normalize_access now p_iso_access = Ok (Some e) /\ occurred_at e = now)
    /\ (exists e, normalize_protect now p_iso_protect = Ok (Some e) /\ occurred_at e = now).
Proof.
  intros now. split; [reflexivity|]. split; [reflexivity|].
  split; eexists; (split; [lazy -[_dedup_id timestamp_int]; reflexivity|reflexivity]).
Qed.

(** C8.  For a vendor type found in neither lookup table, the access
    normalizer yields the type with dots replaced by underscores, whereas
    the protect normalizer yields the type unchanged, dots included. *)
Theorem protect_keeps_dots_in_unmapped_type :
  forall now,
    lookup_str "custom.event" ACCESS_ACTION_MAP = None
    /\ lookup_str "custom.event" PROTECT_ACTION_MAP = None
    /\ (exists e, normalize_access now p_custom_access = Ok (Some e)
                  /\ action e = JStr "custom_event")
    /\ (exists e, normalize_protect now p_custom_protect = Ok (Some e)
                  /\ action e = JStr "custom.event").
Proof.
  intros now. split; [reflexivity|]. split; [reflexivity|].
  split; eexists; (split; [lazy -[_dedup_id timestamp_int]; reflexivity|reflexivity]).
Qed.

End Fields.

(** ** The correlator *)

Section Correlator.
Import Py Normalizers Models Notifications Router Props Examples.




Lemma in_sql_limit {A} n (l : list A) x : In x (sql_limit n l) -> In x l.
Proof.
  unfold sql_limit. destruct (n <? 0); auto.
  intros H. rewrite <- (firstn_skipn (Z.to_nat n) l). apply in_or_app. now left.
Qed.





End Correlator.

(** ** The rule matcher *)

Section RuleMatcher.
Import Py Normalizers Models Notifications Router Props Examples.

(** The matcher as one boolean formula over the policy. *)
Lemma should_notify_formula (ev : Notifications.event) a c :
  action ev = JStr a ->
  _should_notify ev (Some c)
  = Ok (ActivityWebhookConfig.enabled c && url_set c
        && existsb (fun sw => registered (source ev) a sw && switch_value c sw) all_switches).
Proof.
  intros Ha. unfold _should_notify. rewrite Ha.
  destruct (ActivityWebhookConfig.enabled c); [|reflexivity].
  destruct (url_set c); [|reflexivity].
  cbn -[String.eqb contains].
  destruct (String.eqb_spec (source ev) "access") as [->|Hacc];
    cbn -[String.eqb contains].
  - destruct (a =? "access_granted")%string, (a =? "access_denied")%string,
      (a =? "door_held_open")%string,
      (ActivityWebhookConfig.event_access_granted c),
      (ActivityWebhookConfig.event_access_denied c),
      (ActivityWebhookConfig.event_door_held_open c); reflexivity.
  - destruct (source ev =? "protect")%string; [|reflexivity].
    destruct (a =? "doorbell_ring")%string, (a =? "motion_detected")%string,
      (contains "person" a), (contains "vehicle" a),
      (ActivityWebhookConfig.event_doorbell_ring c),
      (ActivityWebhookConfig.event_motion c),
      (ActivityWebhookConfig.event_person_detected c),
      (ActivityWebhookConfig.event_vehicle_detected c); reflexivity.
Qed.

(** C5.  The rule matcher never fires without a policy record.  For an
    event whose action is the slug [a], it answers a boolean, and fires if
    and only if the policy is enabled, a destination URL is set, and some
    switch registered for the event's source and action is on.  For a
    protect event the person switch is matched by containment: with the
    doorbell, motion and vehicle switches off, the matcher fires exactly
    when the person switch is on and the action contains [person]. *)
Theorem should_notify_iff_switch :
  (forall ev, _should_notify ev None = Ok false)
  /\ (forall (ev : Notifications.event) a c,
        action ev = JStr a ->
        exists b,
          _should_notify ev (Some c) = Ok b
          /\ (b = true <->
              ActivityWebhookConfig.enabled c = true
              /\ url_set c = true
              /\ exists sw, registered (source ev) a sw = true /\ switch_value c sw = true))
  /\ (forall (ev : Notifications.event) a c,
        action ev = JStr a ->
        source ev = "protect" ->
        ActivityWebhookConfig.enabled c = true ->
        url_set c = true ->
        ActivityWebhookConfig.event_doorbell_ring c = false ->
        ActivityWebhookConfig.event_motion c = false ->
        ActivityWebhookConfig.event_vehicle_detected c = false ->
        _should_notify ev (Some c)
        = Ok (contains "person" a && ActivityWebhookConfig.event_person_detected c)).
Proof.
  split; [reflexivity|]. split.
  - intros ev a c Ha. eexists. split; [exact (should_notify_formula ev a c Ha)|].
    rewrite !andb_true_iff, existsb_exists.
    split.
    + intros [[He Hu] [sw [_ Hsw]]]. apply andb_true_iff in Hsw. eauto.
    + intros (He & Hu & sw & Hr & Hv). repeat split; auto.
      exists sw. split; [destruct sw; simpl; auto 10|]. now rewrite Hr, Hv.
  - intros ev a c Ha Hs He Hu Hd Hm Hv.
    rewrite (should_notify_formula ev a c Ha), Hs, He, Hu.
    cbn -[contains String.eqb]. rewrite Hd, Hm, Hv.
    cbn -[contains].
    destruct (contains "person" a), (contains "vehicle" a),
      (ActivityWebhookConfig.event_person_detected c),
      (a =? "doorbell_ring")%string, (a =? "motion_detected")%string; reflexivity.
Qed.

Lemma should_notify_iff_switch_witness :
  (exists b,
      _should_notify ev_person_vehicle (Some cfg_both) = Ok b
      /\ (b = true <->
          ActivityWebhookConfig.enabled cfg_both = true
          /\ url_set cfg_both = true
          /\ exists sw,
              registered (source ev_person_vehicle) "smart_detect:person,vehicle" sw = true
              /\ switch_value cfg_both sw = true))
  /\ _should_notify ev_person_vehicle (Some cfg_person_only) = Ok true.
Proof.
  destruct should_notify_iff_switch as (_ & B & C).
  split.
  - exact (B ev_person_vehicle "smart_detect:person,vehicle" cfg_both eq_refl).
  - exact (C ev_person_vehicle "smart_detect:person,vehicle" cfg_person_only
             eq_refl eq_refl eq_refl eq_refl eq_refl eq_refl eq_refl).
Defined.

Lemma switch_eqb_eq s1 s2 : switch_eqb s1 s2 = true <-> s1 = s2.
Proof. destruct s1, s2; simpl; split; congruence. Qed.

Lemma flip_gate sw c :
  ActivityWebhookConfig.enabled (flip sw c) = ActivityWebhookConfig.enabled c
  /\ url_set (flip sw c) = url_set c.
Proof. split; reflexivity. Qed.

Lemma flip_self sw c : switch_value (flip sw c) sw = negb (switch_value c sw).
Proof. destruct sw; reflexivity. Qed.

Lemma others_on_flip r sw c : others_on r (flip sw c) sw = others_on r c sw.
Proof. destruct sw; reflexivity. Qed.

Lemma split_switch r c sw :
  existsb (fun s => r s && switch_value c s) all_switches
  = (r sw && switch_value c sw) || others_on r c sw.
Proof.
  unfold others_on.
  destruct sw; cbn;
    repeat match goal with |- context [?x && ?y] => destruct (x && y) end; reflexivity.
Qed.

Lemma others_off r c sw :
  others_on r c sw = false
  <-> forall sw', sw' <> sw -> r sw' = true -> switch_value c sw' = false.
Proof.
  unfold others_on. split.
  - intros H sw' Hne Hr.
    destruct (switch_value c sw') eqn:Hv; [|reflexivity].
    assert (E : existsb (fun s => negb (switch_eqb s sw) && (r s && switch_value c s))
                  all_switches = true).
    { apply existsb_exists. exists sw'. split; [destruct sw'; simpl; auto 10|].
      rewrite Hr, Hv.
      destruct (switch_eqb sw' sw) eqn:E; [|reflexivity].
      apply switch_eqb_eq in E. contradiction. }
    congruence.
  - intros H.
    destruct (existsb _ _) eqn:E; [|reflexivity].
    apply existsb_exists in E as [s [_ Hs]].
    apply andb_true_iff in Hs as [Hne Hs]. apply andb_true_iff in Hs as [Hr Hv].
    rewrite (H s) in Hv; [discriminate| |exact Hr].
    intros ->. apply negb_true_iff in Hne.
    assert (switch_eqb sw sw = true) by now apply switch_eqb_eq.
    congruence.
Qed.

(** C6, as amended.  Fix an event whose action is the slug [a] and a policy
    that is enabled and has a destination.  Flipping a switch that is not
    registered for the event's source and action never changes the outcome
    of the matcher.  Flipping a registered switch changes the outcome if
    and only if every other switch registered for the event is off. *)
Theorem switch_toggling :
  forall (ev : Notifications.event) a c sw,
    action ev = JStr a ->
    ActivityWebhookConfig.enabled c = true ->
    url_set c = true ->
    (registered (source ev) a sw = false ->
     _should_notify ev (Some (flip sw c)) = _should_notify ev (Some c))
    /\ (registered (source ev) a sw = true ->
        (_should_notify ev (Some (flip sw c)) <> _should_notify ev (Some c)
         <-> forall sw', sw' <> sw ->
                         registered (source ev) a sw' = true -> switch_value c sw' = false)).
Proof.
  intros ev a c sw Ha He Hu.
  rewrite !(should_notify_formula _ a _ Ha).
  destruct (flip_gate sw c) as [-> ->]. rewrite He, Hu. cbn [andb].
  rewrite !(split_switch (registered (source ev) a) _ sw).
  rewrite others_on_flip, flip_self.
  split; intros Hr; rewrite Hr; cbn [andb orb].
  - reflexivity.
  - rewrite <- others_off.
    destruct (switch_value c sw), (others_on _ c sw); cbn; split;
      congruence || (intros H; exfalso; apply H; reflexivity).
Qed.

Lemma switch_toggling_witness :
  (_should_notify ev_person_vehicle (Some (flip Motion cfg_both))
   = _should_notify ev_person_vehicle (Some cfg_both))
  /\ (_should_notify (with_iso e_person) (Some (flip PersonDetected cfg_both))
      <> _should_notify (with_iso e_person) (Some cfg_both)).
Proof.
  split.
  - apply (switch_toggling ev_person_vehicle "smart_detect:person,vehicle" cfg_both Motion);
      reflexivity.
  - apply (switch_toggling (with_iso e_person) "smart_detect:person" cfg_both PersonDetected);
      try reflexivity.
    intros sw' Hne Hr. destruct sw'; try reflexivity; try discriminate Hr.
    now contradiction Hne.
Defined.

(** C6, counterexample.  The action [smart_detect:person,vehicle] is
    registered with both the person and the vehicle switch.  With both on,
    flipping either one alone leaves the matcher firing; only flipping both
    stops it. *)
Lemma switch_toggling_counterexample :
  registered (source ev_person_vehicle) "smart_detect:person,vehicle" PersonDetected = true
  /\ registered (source ev_person_vehicle) "smart_detect:person,vehicle" VehicleDetected = true
  /\ ActivityWebhookConfig.enabled cfg_both = true
  /\ url_set cfg_both = true
  /\ _should_notify ev_person_vehicle (Some cfg_both) = Ok true
  /\ _should_notify ev_person_vehicle (Some (flip PersonDetected cfg_both)) = Ok true
  /\ _should_notify ev_person_vehicle (Some (flip VehicleDetected cfg_both)) = Ok true
  /\ _should_notify ev_person_vehicle
       (Some (flip VehicleDetected (flip PersonDetected cfg_both))) = Ok false.
Proof. vm_compute. repeat split. Qed.

End RuleMatcher.

(** ** Delivery *)

Section Delivery.
Import Py Normalizers Models Notifications Router Props Examples.




End Delivery.

(** ** Totality of the normalizers *)

Section Totality.
Import Py Normalizers Models Notifications Router Props Examples.
Local Open Scope py_scope.

Lemma py_or_truthy a b : truthy b = true -> truthy (py_or a b) = true.
Proof. unfold py_or. destruct (truthy a) eqn:E; auto. Qed.

Lemma access_type_truthy d : truthy (access_type d) = true.
Proof. unfold access_type. now repeat apply py_or_truthy. Qed.

Lemma protect_type_truthy d : truthy (protect_type d) = true.
Proof. unfold protect_type. now repeat apply py_or_truthy. Qed.

Lemma str_of_int_nonempty z : (str_of_int z =? "")%string = false.
Proof.
  unfold str_of_int.
  destruct z as [|p|p]; simpl; try reflexivity.
  destruct (Pos.to_uint p); reflexivity.
Qed.

Lemma str_nonempty v : truthy v = true -> (str v =? "")%string = false.
Proof.
  destruct v as [|[]|z|s|[|x l]|[|kv d]]; simpl; try discriminate; intros H;
    try reflexivity.
  - apply str_of_int_nonempty.
  - now apply negb_true_iff in H.
Qed.

Lemma dedup_id_nonempty prefix parts : (_dedup_id prefix parts =? "")%string = false.
Proof.
  apply String.eqb_neq. intros E.
  assert (L : String.length (_dedup_id prefix parts) = 24%nat).
  { unfold _dedup_id. apply length_take. rewrite length_hexdigest. lia. }
  rewrite E in L. discriminate.
Qed.

Lemma event_id_nonempty id prefix parts :
  (str (py_or id (JStr (_dedup_id prefix parts))) =? "")%string = false.
Proof.
  unfold py_or. destruct (truthy id) eqn:T.
  - now apply str_nonempty.
  - apply dedup_id_nonempty.
Qed.

Lemma map_chars_nonempty f s : (s =? "")%string = false -> (map_chars f s =? "")%string = false.
Proof. destruct s; simpl; auto. Qed.

Lemma access_action_str s :
  (s =? "")%string = false ->
  exists a, access_action (JStr s) = Ok (JStr a) /\ (a =? "")%string = false.
Proof.
  intros H. unfold access_action. eexists. split; [reflexivity|].
  destruct (lookup_str s ACCESS_ACTION_MAP) as [a|] eqn:L.
  - simpl in L.
    repeat match type of L with
           | (if ?c then _ else _) = _ => destruct c; [injection L as <-; reflexivity|]
           end.
    discriminate.
  - now apply map_chars_nonempty.
Qed.

Lemma normalize_access_total now d :
  (access_shape d = true ->
   exists e, normalize_access now (JDict d) = Ok (Some e) /\ valid_event e = true)
  /\ (access_shape d = false -> normalize_access now (JDict d) = Raise AttributeError).
Proof.
  unfold normalize_access, access_shape.
  rewrite !get_dict, !or_else_Ok. fold (access_type d). cbn [bind].
  rewrite get_default_dict. fold (data_of d). cbn [bind].
  destruct (data_of d) as [|b|z|s|l|dd];
    try (split; [discriminate|reflexivity]).
  rewrite !get_dict, !or_else_Ok. cbn [bind].
  rewrite get_default_dict. cbn [bind].
  destruct (field dd "actor" (JDict [])) as [|b|z|s|l|da];
    try (split; [discriminate|reflexivity]).
  rewrite !get_dict, !or_else_Ok. cbn [bind].
  rewrite !get_default_dict. cbn [bind].
  destruct (field dd "door" (JDict [])) as [|b|z|s|l|dr];
    try (split; [discriminate|reflexivity]).
  rewrite !get_dict, !or_else_Ok. cbn [bind].
  pose proof (access_type_truthy d) as T.
  destruct (access_type d) as [|b|z|s|l|dt];
    try (split; [discriminate|reflexivity]).
  split; [intros _|discriminate].
  destruct (access_action_str s) as [a [-> Ha]].
  { simpl in T. now apply negb_true_iff in T. }
  cbn [bind]. eexists. split; [reflexivity|].
  unfold valid_event. cbn [event_id source event_type action].
  now rewrite event_id_nonempty, Ha.
Qed.

Ltac finish_normalizer :=
  first
    [ split; [discriminate | intros _; left; eexists; reflexivity]
    | split; [discriminate | intros _; right; eexists; split; reflexivity]
    | split; [intros _ | discriminate]; eexists; split; [reflexivity|];
      unfold valid_event; cbn [event_id source event_type action];
      rewrite event_id_nonempty;
      repeat match goal with
             | H : (?a =? "")%string = false |- context [(?a =? "")%string] => rewrite H
             end;
      reflexivity ].

Lemma protect_action_str s :
  (s =? "")%string = false ->
  exists a, protect_action (JStr s) = Ok (JStr a) /\ (a =? "")%string = false.
Proof.
  intros H. unfold protect_action.
  destruct (lookup_str s PROTECT_ACTION_MAP) as [a|] eqn:L.
  - exists a. split; [reflexivity|]. simpl in L.
    repeat match type of L with
           | (if ?c then _ else _) = _ => destruct c; [injection L as <-; reflexivity|]
           end.
    discriminate.
  - exists s. auto.
Qed.

Lemma normalize_protect_total now d :
  (protect_shape d = true ->
   exists e, normalize_protect now (JDict d) = Ok (Some e) /\ valid_event e = true)
  /\ (protect_shape d = false ->
      (exists x, normalize_protect now (JDict d) = Raise x)
      \/ (exists e, normalize_protect now (JDict d) = Ok (Some e)
                    /\ is_str (action e) = false)).
Proof.
  unfold normalize_protect, protect_shape.
  norm_gets. fold (protect_type d). fold (data_of d).
  destruct (data_of d) as [|b|z|s|l|dd]; try finish_normalizer.
  norm_gets.
  pose proof (protect_type_truthy d) as T.
  set (smart := field dd "smartDetectTypes" (JList [])).
  cbv zeta.
  destruct (protect_type d) as [|b|z|s|l|dt] eqn:PT;
    try discriminate T;
    cbn [hashable is_str andb].
  4,5: cbn [protect_action bind]; destruct (truthy smart); finish_normalizer.
  3: { assert (Hs : (s =? "")%string = false)
         by (simpl in T; now apply negb_true_iff in T).
       destruct (protect_action_str s Hs) as [a [-> Ha]]. cbn [bind].
       destruct (truthy smart) eqn:TS; cbn [bind]; [|finish_normalizer].
       destruct smart as [|b'|z'|s'|l'|ds]; cbn [join_json joinable bind];
         try finish_normalizer.
       destruct (forallb is_str l'); cbn [bind]; finish_normalizer. }
  all: cbn [protect_action bind];
    (destruct (truthy smart) eqn:TS; cbn [bind]; [|finish_normalizer]);
    (destruct smart as [|b'|z'|s'|l'|ds]; cbn [join_json joinable bind];
     try finish_normalizer);
    destruct (forallb is_str l'); cbn [bind]; finish_normalizer.
Qed.




End Totality.

(** ** Requests as a whole *)

Section Batch.
Import Py Normalizers Models Notifications Router Props Examples.

(** What a delivery that returns leaves in the trace: nothing, or one POST to
    the configured destination followed by one record that is not INFO. *)
Lemma send_notification_effects net ev c b effs :
  send_notification net ev (Some c) = Ok (b, effs) ->
  effs = []
  \/ exists payload lvl msg,
       effs = [HttpPost (match ActivityWebhookConfig.webhook_url c with Some u => u | None => "" end)
                 payload 10; LogRecord lvl msg]
       /\ lvl <> INFO.
Proof.
  unfold send_notification.
  destruct (_should_notify ev (Some c)) as [[|]|x]; cbn [bind]; try discriminate.
  2:{ intros H. injection H as <- <-. now left. }
  match goal with
  | |- context [bind ?m _] => destruct m as [payload|x]; cbn [bind]; [|discriminate]
  end.
  destruct (net _ payload) as [st body| |msg].
  - destruct (st <? 300); intros H; injection H as <- <-; right;
      do 3 eexists; (split; [reflexivity|discriminate]).
  - intros H; injection H as <- <-; right; do 3 eexists; (split; [reflexivity|discriminate]).
  - intros H; injection H as <- <-; right; do 3 eexists; (split; [reflexivity|discriminate]).
Qed.

(** The trace of one insert. *)
Lemma store_effects net now e db :
  let o := _store_event net now e db in
  let fresh := negb (has_event_id (event_id e) (activity_events db)) in
  info_records (effects o) = (if fresh then 1 else 0)%nat
  /\ (List.length (posts (effects o)) <= (if fresh then 1 else 0))%nat
  /\ (forall u p, In (u, p) (posts (effects o)) -> u = policy_url db).
Proof.
  unfold _store_event, policy_url.
  destruct (has_event_id _ _); cbn -[send_notification]; [repeat split; auto; intros u p []|].
  destruct (activity_webhook_config db) as [|c cs]; cbn -[send_notification];
    [repeat split; auto; intros u p []|].
  destruct (send_notification _ _ _) as [[b effs]|x] eqn:E; cbn;
    [|repeat split; auto; intros u p []].
  apply send_notification_effects in E as [->|(payload & lvl & msg & -> & Hl)]; cbn.
  - repeat split; auto. intros u p [].
  - destruct lvl; try contradiction; cbn; repeat split; auto;
      intros u p [H|[]]; now injection H as <- <-.
Qed.


(** The next key is above every stored key. *)
Lemma next_id_above rows r : In r rows -> ActivityEvent.id r < next_id rows.
Proof.
  unfold next_id. induction rows as [|x rows IH]; cbn [map fold_right In]; [intros []|].
  intros [->|H]; [lia|]. specialize (IH H). lia.
Qed.

Lemma store_row_ids net now e db :
  NoDup (row_ids db) -> NoDup (row_ids (db_after (_store_event net now e db))).
Proof.
  unfold row_ids. intros U.
  destruct (store_rows net now e db) as [-> _].
  destruct (has_event_id _ _); [now rewrite app_nil_r|].
  rewrite map_app. simpl.
  apply NoDup_app; auto.
  - constructor; [intros []|constructor].
  - intros x Hx [<-|[]]. simpl in Hx.
    apply in_map_iff in Hx as [r [E Hr]]. apply next_id_above in Hr.
    unfold next_id in *. lia.
Qed.

(** What the loop over the items of a request keeps true, whether it ends
    normally or in an exception. *)
Lemma store_all_invariant normalize net now events :
  forall stored db,
    let o := store_all normalize net now events stored db in
    exists new,
      activity_events (db_after o) = (activity_events db ++ new)%list
      /\ activity_webhook_config (db_after o) = activity_webhook_config db
      /\ (List.length new <= List.length events)%nat
      /\ info_records (effects o) = List.length new
      /\ (List.length (posts (effects o)) <= List.length new)%nat
      /\ (forall u p, In (u, p) (posts (effects o)) -> u = policy_url db)
      /\ (unique_event_ids db -> unique_event_ids (db_after o))
      /\ (NoDup (row_ids db) -> NoDup (row_ids (db_after o)))
      /\ (forall n, returned o = Ok n ->
            stored + Z.of_nat (List.length new) <= n <= stored + Z.of_nat (List.length events)).
Proof.
  induction events as [|raw rest IH]; intros stored db; cbn [store_all].
  - exists []. cbn. rewrite app_nil_r. repeat split; auto; try (intros u p []).
    all: intros; match goal with H : Ok _ = Ok _ |- _ => injection H as <- end; lia.
  - destruct (normalize now raw) as [[normalized|]|x].
    + pose proof (store_rows net now normalized db) as [R C].
      pose proof (store_effects net now normalized db) as (I & P & PU).
      pose proof (store_unique net now normalized db) as U.
      pose proof (store_row_ids net now normalized db) as N.
      set (o := _store_event net now normalized db) in *.
      set (fresh := negb (has_event_id (event_id normalized) (activity_events db))) in *.
      assert (single : exists one, activity_events (db_after o) = (activity_events db ++ one)%list
                                   /\ List.length one = (if fresh then 1 else 0)%nat).
      { rewrite R. subst fresh. destruct (has_event_id _ _); eexists; split; reflexivity. }
      destruct single as (one & R1 & L1).
      destruct (returned o) as [[]|x] eqn:Ret.
      * destruct (IH (stored + 1) (db_after o)) as (new & A & B & L & I' & P' & PU' & U' & N' & S').
        exists (one ++ new)%list. cbn [db_after effects returned].
        rewrite A, R1, B, C, <- app_assoc.
        unfold info_records in *. rewrite filter_app, !length_app.
        unfold posts in *. rewrite flat_map_app, length_app.
        repeat split; auto;
          try (destruct fresh; simpl in *; lia);
          try (intros;
               match goal with
               | H : returned _ = Ok ?n |- _ => specialize (S' n H)
               end; destruct fresh; simpl in *; lia).
        intros u p Hin. apply in_app_iff in Hin as [Hin|Hin]; [exact (PU u p Hin)|].
        rewrite (PU' u p Hin). unfold policy_url. now rewrite C.
      * exists one. cbn [db_after effects returned].
        repeat split; auto; try discriminate;
          try (destruct fresh; simpl in *; lia).
    + destruct (IH stored db) as (new & A & B & L & I' & P' & PU' & U' & N' & S').
      exists new. repeat split; auto; try (simpl; lia);
        intros;
        match goal with
        | H : returned _ = Ok ?n |- _ => specialize (S' n H)
        end; simpl; lia.
    + exists []. cbn. rewrite app_nil_r.
      repeat split; auto; try discriminate; try lia; try (intros u p []).
Qed.


Lemma normalize_access_some now raw : normalize_access now raw <> Ok None.
Proof.
  destruct raw as [|b|z|s|l|d]; try discriminate.
  destruct (normalize_access_total now d) as [A1 A2].
  destruct (access_shape d).
  - destruct A1 as [e [-> _]]; [reflexivity|discriminate].
  - rewrite A2; [discriminate|reflexivity].
Qed.

Lemma normalize_protect_some now raw : normalize_protect now raw <> Ok None.
Proof.
  destruct raw as [|b|z|s|l|d]; try discriminate.
  destruct (normalize_protect_total now d) as [P1 P2].
  destruct (protect_shape d).
  - destruct P1 as [e [-> _]]; [reflexivity|discriminate].
  - destruct P2 as [[x ->]|[e [-> _]]]; [reflexivity|discriminate|discriminate].
Qed.

(** With a normalizer that never answers [None], a loop that ends normally
    has counted every item. *)
Lemma store_all_counts normalize net now events :
  (forall raw, normalize now raw <> Ok None) ->
  forall stored db n,
    returned (store_all normalize net now events stored db) = Ok n ->
    n = stored + Z.of_nat (List.length events).
Proof.
  intros NN. induction events as [|raw rest IH]; intros stored db n; cbn [store_all].
  - intros H. injection H as <-. simpl. lia.
  - destruct (normalize now raw) as [[normalized|]|x] eqn:E;
      [|now contradiction (NN raw)|discriminate].
    destruct (returned (_store_event net now normalized db)); [|discriminate].
    cbn [returned]. intros H. apply IH in H. cbn [List.length]. lia.
Qed.

Lemma receive_invariant normalize net now payload db :
  let o := receive normalize net now payload db in
  exists new,
    activity_events (db_after o) = (activity_events db ++ new)%list
    /\ activity_webhook_config (db_after o) = activity_webhook_config db
    /\ (List.length new <= List.length (items payload))%nat
    /\ info_records (effects o) = List.length new
    /\ (List.length (posts (effects o)) <= List.length new)%nat
    /\ (forall u p, In (u, p) (posts (effects o)) -> u = policy_url db)
    /\ (unique_event_ids db -> unique_event_ids (db_after o))
    /\ (NoDup (row_ids db) -> NoDup (row_ids (db_after o)))
    /\ (forall r, returned o = Ok r ->
          status r = "ok"
          /\ received r = Z.of_nat (List.length (items payload))
          /\ Z.of_nat (List.length new) <= stored r <= received r
          /\ ((forall raw, normalize now raw <> Ok None) -> stored r = received r)).
Proof.
  unfold receive. fold (items payload). cbn [db_after effects returned].
  destruct (store_all_invariant normalize net now (items payload) 0 db)
    as (new & A & B & L & I & P & PU & U & N & S).
  exists new. repeat split; auto.
  all: intros;
    match goal with
    | H : match ?m with Ok _ => _ | Raise _ => _ end = Ok _ |- _ =>
        destruct m as [n|x] eqn:Ret; [injection H as <-|discriminate]
    end; cbn [status received stored]; auto.
  - specialize (S n eq_refl). lia.
  - specialize (S n eq_refl). lia.
  - apply (store_all_counts normalize net now (items payload)) in Ret; auto.
Qed.

(** X1.  Ingestion only appends.  Whatever a receiver is sent, and whether
    the request ends normally or in an exception, the rows stored before
    are all still there, unchanged and in their order, followed by at most
    one new row per item of the request; the notification settings are not
    touched; and if the event ids, and the row keys, were pairwise distinct
    before, they still are. *)
Theorem receivers_append_only :
  forall net now payload db,
    (let o := webhook_access net now payload db in
     exists new,
       activity_events (db_after o) = (activity_events db ++ new)%list
       /\ activity_webhook_config (db_after o) = activity_webhook_config db
       /\ (List.length new <= List.length (items payload))%nat
       /\ (unique_event_ids db -> unique_event_ids (db_after o))
       /\ (NoDup (row_ids db) -> NoDup (row_ids (db_after o))))
    /\ (let o := webhook_protect net now payload db in
        exists new,
          activity_events (db_after o) = (activity_events db ++ new)%list
          /\ activity_webhook_config (db_after o) = activity_webhook_config db
          /\ (List.length new <= List.length (items payload))%nat
          /\ (unique_event_ids db -> unique_event_ids (db_after o))
          /\ (NoDup (row_ids db) -> NoDup (row_ids (db_after o)))).
Proof.
  intros net now payload db. split.
  - destruct (receive_invariant normalize_access net now payload db)
      as (new & A & B & L & _ & _ & _ & U & N & _).
    exists new. repeat split; auto.
  - destruct (receive_invariant normalize_protect net now payload db)
      as (new & A & B & L & _ & _ & _ & U & N & _).
    exists new. repeat split; auto.
Qed.

(** X2.  The trace of a request.  Whatever a receiver is sent, it writes
    exactly one INFO log record per row it inserts and performs at most
    one outbound POST per row it inserts, and every POST goes to the URL of
    the first notification settings row as it was when the request came in. *)
Theorem receivers_log_and_post_per_insert :
  forall net now payload db,
    (let o := webhook_access net now payload db in
     info_records (effects o)
     = (List.length (activity_events (db_after o)) - List.length (activity_events db))%nat
     /\ (List.length (posts (effects o)) <= info_records (effects o))%nat
     /\ (forall u p, In (u, p) (posts (effects o)) -> u = policy_url db))
    /\ (let o := webhook_protect net now payload db in
        info_records (effects o)
        = (List.length (activity_events (db_after o)) - List.length (activity_events db))%nat
        /\ (List.length (posts (effects o)) <= info_records (effects o))%nat
        /\ (forall u p, In (u, p) (posts (effects o)) -> u = policy_url db)).
Proof.
  intros net now payload db. split.
  - destruct (receive_invariant normalize_access net now payload db)
      as (new & A & _ & _ & I & P & PU & _).
    cbv zeta. unfold webhook_access. rewrite A, length_app, I. repeat split; auto. lia.
  - destruct (receive_invariant normalize_protect net now payload db)
      as (new & A & _ & _ & I & P & PU & _).
    cbv zeta. unfold webhook_protect. rewrite A, length_app, I. repeat split; auto. lia.
Qed.

(** X3.  The counters of the answer.  Whenever a receiver answers, the
    status is [ok], [received] is the number of items of the request (one
    for a payload that is not a list), and [stored] equals [received]: the
    normalizers never reject an item, so [stored] says nothing about how
    many rows were added, which can be any number up to it. *)
Theorem receivers_stored_equals_received :
  forall net now payload db r,
    (returned (webhook_access net now payload db) = Ok r
     \/ returned (webhook_protect net now payload db) = Ok r) ->
    status r = "ok"
    /\ received r = Z.of_nat (List.length (items payload))
    /\ stored r = received r.
Proof.
  intros net now payload db r [H|H].
  - destruct (receive_invariant normalize_access net now payload db)
      as (new & _ & _ & _ & _ & _ & _ & _ & _ & R).
    destruct (R r H) as (S & Rc & _ & E).
    repeat split; auto. apply E. intros raw. apply normalize_access_some.
  - destruct (receive_invariant normalize_protect net now payload db)
      as (new & _ & _ & _ & _ & _ & _ & _ & _ & R).
    destruct (R r H) as (S & Rc & _ & E).
    repeat split; auto. apply E. intros raw. apply normalize_protect_some.
Qed.

Lemma receivers_stored_equals_received_witness :
  returned (webhook_access net_ok 5 (JList [JDict d_granted; JDict d_granted]) empty_db)
  = Ok {| status := "ok"; received := 2; stored := 2 |}
  /\ List.length (activity_events
                    (db_after (webhook_access net_ok 5
                                 (JList [JDict d_granted; JDict d_granted]) empty_db))) = 1%nat
  /\ stored {| status := "ok"; received := 2; stored := 2 |}
     = received {| status := "ok"; received := 2; stored := 2 |}.
Proof.
  split; [vm_compute; reflexivity|]. split; [vm_compute; reflexivity|].
  apply (receivers_stored_equals_received net_ok 5
           (JList [JDict d_granted; JDict d_granted]) empty_db).
  left. vm_compute. reflexivity.
Defined.

End Batch.

(** ** Insert and notification *)

Section Commit.
Import Py Normalizers Models Notifications Router Props Examples.



End Commit.

(** ** Fields of the normalized event *)

Section Stamp.
Import Py Normalizers Models Notifications Router Props Examples.
Local Open Scope py_scope.

(** The fields of a normalized access event, read off the payload. *)
Lemma normalize_access_fields now d e :
  normalize_access now (JDict d) = Ok (Some e) ->
  source e = "access" /\ event_type e = "physical_access"
  /\ metadata_json e = JDict d
  /\ raw_event_type e = access_type d
  /\ access_action (access_type d) = Ok (action e)
  /\ occurred_at e
     = (if truthy (access_timestamp d) then _ts_to_dt now (access_timestamp d) else now).
Proof.
  unfold normalize_access, access_timestamp.
  norm_gets. fold (access_type d). fold (data_of d).
  destruct (data_of d) as [|b|z|s|l|dd]; try discriminate.
  norm_gets.
  destruct (field dd "actor" (JDict [])) as [|b|z|s|l|da]; try discriminate.
  norm_gets.
  destruct (field dd "door" (JDict [])) as [|b|z|s|l|dr]; try discriminate.
  norm_gets.
  destruct (access_action (access_type d)) as [a|x]; [|discriminate].
  cbn [bind]. intros H. injection H as <-. cbn.
  repeat split; reflexivity.
Qed.


(** The fields of a normalized protect event, read off the payload. *)
Lemma normalize_protect_fields now d e :
  normalize_protect now (JDict d) = Ok (Some e) ->
  source e = "protect" /\ event_type e = "video_event"
  /\ metadata_json e = JDict d
  /\ raw_event_type e = protect_type d
  /\ occurred_at e
     = (if truthy (protect_timestamp d) then _ts_to_dt now (protect_timestamp d) else now)
  /\ exists dd,
       data_of d = JDict dd
       /\ (let smart := field dd "smartDetectTypes" (JList []) in
           if truthy smart
           then exists joined, join_json "," smart = Ok joined
                               /\ action e = JStr ("smart_detect:" ++ joined)
           else protect_action (protect_type d) = Ok (action e)).
Proof.
  unfold normalize_protect, protect_timestamp.
  norm_gets. fold (protect_type d). fold (data_of d).
  destruct (data_of d) as [|b|z|s|l|dd]; try discriminate.
  norm_gets.
  destruct (protect_action (protect_type d)) as [a|x]; [|discriminate].
  cbn [bind].
  set (smart := field dd "smartDetectTypes" (JList [])).
  destruct (truthy smart) eqn:TS.
  - destruct (join_json "," smart) as [joined|x] eqn:J; [|discriminate].
    cbn [bind]. norm_gets. intros H. injection H as <-. cbn.
    repeat split; try reflexivity.
    exists dd. split; [reflexivity|]. fold smart. rewrite TS. eauto.
  - cbn [bind]. norm_gets. intros H. injection H as <-. cbn.
    repeat split; try reflexivity.
    exists dd. split; [reflexivity|]. fold smart. now rewrite TS.
Qed.




End Stamp.

Section Slug.
Import Py Normalizers Models Notifications Router Props Examples.
Local Open Scope py_scope.

Lemma contains_char_map c f s :
  (forall x, Ascii.eqb (f x) c = false) -> contains (str1 c) (map_chars f s) = false.
Proof.
  intros F. induction s as [|x s IH]; [reflexivity|].
  cbn [map_chars contains str1 prefix]. rewrite IH.
  destruct (Ascii.eqb_spec c (f x)) as [E|E].
  - specialize (F x). rewrite <- E, Ascii.eqb_refl in F. discriminate.
  - destruct (ascii_dec c (f x)); [contradiction|reflexivity].
Qed.

Lemma replace_char_no_dot s : contains "." (replace_char "."%char "_"%char s) = false.
Proof.
  apply (contains_char_map "."%char). intros x.
  destruct (Ascii.eqb_spec x "."%char) as [->|N]; [reflexivity|].
  now apply Ascii.eqb_neq.
Qed.

Lemma access_action_slug t a :
  access_action (JStr t) = Ok (JStr a) ->
  contains "." a = false
  /\ match lookup_str t ACCESS_ACTION_MAP with
     | Some m => a = m
     | None => a = replace_char "."%char "_"%char t
     end.
Proof.
  unfold access_action.
  destruct (lookup_str t ACCESS_ACTION_MAP) as [m|] eqn:L; intros H; injection H as <-.
  - split; [|reflexivity]. simpl in L.
    repeat match type of L with
           | (if ?c then _ else _) = _ => destruct c; [injection L as <-; reflexivity|]
           end.
    discriminate.
  - split; [apply replace_char_no_dot|reflexivity].
Qed.

(** X6.  The access action is a slug.  Whatever payload the access
    normalizer accepts, the vendor type [t] it kept and the action [a] it
    derived are non-empty strings, [a] holds no dot, and [a] is as long as
    the table entry for [t] or, for a type the table does not know, as [t]
    itself; such a type without a dot passes through unchanged. *)
Theorem access_action_is_a_dotless_slug :
  forall now payload e,
    normalize_access now payload = Ok (Some e) ->
    exists t a,
      raw_event_type e = JStr t /\ action e = JStr a
      /\ t <> "" /\ a <> ""
      /\ contains "." a = false
      /\ String.length a = String.length (match lookup_str t ACCESS_ACTION_MAP with
                                          | Some m => m | None => t end)
      /\ (lookup_str t ACCESS_ACTION_MAP = None -> contains "." t = false -> a = t).
Proof.
  intros now payload e N.
  destruct payload as [|b|z|s|l|d]; try discriminate.
  apply normalize_access_fields in N as (_ & _ & _ & R & A & _).
  pose proof (access_type_truthy d) as T.
  destruct (access_type d) as [|b|z|t|l|dt]; try discriminate.
  destruct (action e) as [|b|z|a|l|da] eqn:Ea; try discriminate.
  assert (Ht : (t =? "")%string = false) by (simpl in T; now apply negb_true_iff in T).
  destruct (access_action_str t Ht) as (a' & A' & Ha').
  rewrite A in A'. injection A' as <-.
  destruct (access_action_slug t a A) as [D M].
  exists t, a. repeat split; auto.
  - now apply String.eqb_neq.
  - now apply String.eqb_neq.
  - destruct (lookup_str t ACCESS_ACTION_MAP); subst a; [reflexivity|].
    unfold replace_char. clear. induction t; simpl; congruence.
  - intros L Hd. rewrite L in M. subst a.
    unfold replace_char. clear -Hd. induction t as [|c t IH]; [reflexivity|].
    cbn [contains prefix] in Hd. apply orb_false_iff in Hd as [Hc Hd].
    cbn [map_chars]. rewrite (IH Hd).
    destruct (Ascii.eqb_spec c "."%char) as [->|]; [|reflexivity].
    destruct t; discriminate Hc.
Qed.

Lemma access_action_is_a_dotless_slug_witness :
  exists t a,
    raw_event_type e_granted = JStr t /\ action e_granted = JStr a
    /\ t <> "" /\ a <> ""
    /\ contains "." a = false
    /\ String.length a = String.length (match lookup_str t ACCESS_ACTION_MAP with
                                        | Some m => m | None => t end)
    /\ (lookup_str t ACCESS_ACTION_MAP = None -> contains "." t = false -> a = t).
Proof.
  exact (access_action_is_a_dotless_slug 5 (JDict d_granted) e_granted eq_refl).
Defined.

End Slug.

(** ** Smart detections *)

Section Tags.
Import Py Normalizers Models Notifications Router Props Examples.
Local Open Scope py_scope.

Lemma prefix_before c needle :
  all_chars (fun x => negb (Ascii.eqb x c)) needle = true ->
  forall s1 s2, prefix needle (s1 ++ String c s2) = prefix needle s1.
Proof.
  induction needle as [|n nd IH]; intros H s1 s2; [destruct s1; reflexivity|].
  cbn [all_chars] in H. apply andb_true_iff in H as [Hn Hnd].
  apply negb_true_iff, Ascii.eqb_neq in Hn.
  destruct s1 as [|x s1]; cbn [append prefix].
  - destruct (ascii_dec n c); [contradiction|reflexivity].
  - rewrite (IH Hnd). reflexivity.
Qed.

(** A word without the character [c] occurs in [s1 ++ c :: s2] exactly when it
    occurs on one side of [c]. *)
Lemma contains_around c needle :
  needle <> "" ->
  all_chars (fun x => negb (Ascii.eqb x c)) needle = true ->
  forall s1 s2,
    contains needle (s1 ++ String c s2) = contains needle s1 || contains needle s2.
Proof.
  intros NE H s1 s2.
  assert (E : contains needle "" = false) by (destruct needle; [contradiction|reflexivity]).
  induction s1 as [|x s1 IH].
  - rewrite E. cbn [append contains orb].
    pose proof (prefix_before c needle H "" s2) as P. cbn [append] in P. rewrite P.
    destruct needle; [contradiction|reflexivity].
  - change (String x s1 ++ String c s2) with (String x (s1 ++ String c s2)).
    cbn [contains]. rewrite IH.
    change (String x (s1 ++ String c s2)) with (String x s1 ++ String c s2).
    rewrite (prefix_before c needle H), orb_assoc. reflexivity.
Qed.

Lemma contains_join needle (ss : list string) :
  needle <> "" ->
  all_chars (fun x => negb (Ascii.eqb x ","%char)) needle = true ->
  contains needle (join "," ss) = existsb (contains needle) ss.
Proof.
  intros NE H.
  assert (E : contains needle "" = false) by (destruct needle; [contradiction|reflexivity]).
  induction ss as [|s ss IH]; [exact E|].
  destruct ss as [|s' ss].
  - cbn [join concat existsb]. now rewrite orb_false_r.
  - change (join "," (s :: s' :: ss)) with (s ++ String ","%char (join "," (s' :: ss))).
    rewrite (contains_around ","%char needle NE H), IH. reflexivity.
Qed.


Lemma contains_smart_action needle (tags : list json) :
  needle <> "" ->
  all_chars (fun x => negb (Ascii.eqb x ","%char)) needle = true ->
  all_chars (fun x => negb (Ascii.eqb x ":"%char)) needle = true ->
  contains needle "smart_detect" = false ->
  contains needle ("smart_detect:" ++ join "," (map str tags)) = tagged needle tags.
Proof.
  intros NE Hc Hs Hp.
  change ("smart_detect:" ++ join "," (map str tags))
    with ("smart_detect" ++ String ":"%char (join "," (map str tags))).
  rewrite (contains_around ":"%char needle NE Hs), Hp, (contains_join needle _ NE Hc).
  unfold tagged. cbn [orb]. induction tags as [|t tags IH]; [reflexivity|].
  cbn [map existsb]. now rewrite IH.
Qed.

(** X7.  From the smart-detect tags to the notification rule.  When a
    protect payload carries a non-empty list of smart-detect tags and the
    normalizer accepts it, the action is [smart_detect:] followed by the
    tags joined with commas, whatever the event type, and the rule matcher
    answers, for every policy: enabled, and a destination set, and (some
    tag contains [person] and the person switch is on, or some tag contains
    [vehicle] and the vehicle switch is on).  The doorbell and motion
    switches never apply to such an event. *)
Theorem smart_detection_notifies_by_tag :
  forall now d e c tags,
    normalize_protect now (JDict d) = Ok (Some e) ->
    smart_types d = JList tags ->
    tags <> [] ->
    action e = JStr ("smart_detect:" ++ join "," (map str tags))
    /\ _should_notify (with_iso e) (Some c)
       = Ok (ActivityWebhookConfig.enabled c && url_set c
             && ((tagged "person" tags && ActivityWebhookConfig.event_person_detected c)
                 || (tagged "vehicle" tags && ActivityWebhookConfig.event_vehicle_detected c))).
Proof.
  intros now d e c tags N S NE.
  apply normalize_protect_fields in N as (Src & _ & _ & _ & _ & dd & D & A).
  unfold smart_types in S. rewrite D in S. rewrite S in A. cbv zeta in A.
  destruct tags as [|t tags]; [contradiction|]. cbn [truthy] in A.
  destruct A as (joined & J & A).
  cbn [join_json] in J.
  destruct (forallb is_str (t :: tags)); [|discriminate]. injection J as <-.
  split; [exact A|].
  rewrite (should_notify_formula (with_iso e) _ c A).
  cbn [with_iso source]. rewrite Src. f_equal. f_equal.
  cbn [all_switches existsb registered switch_value].
  rewrite !(contains_smart_action _ (t :: tags)); try reflexivity; try discriminate.
  cbn -[tagged]. now rewrite orb_false_r.
Qed.

Lemma smart_detection_notifies_by_tag_witness :
  action e_person = JStr "smart_detect:person"
  /\ _should_notify (with_iso e_person) (Some cfg_person_only) = Ok true.
Proof.
  apply (smart_detection_notifies_by_tag 5 d_person e_person cfg_person_only [JStr "person"]);
    [reflexivity|reflexivity|discriminate].
Defined.

End Tags.

(** ** Order and completeness of the correlator *)

Section CorrelatorOrder.
Import Py Normalizers Models Notifications Router Props Examples.



Lemma firstn_sorted {A} (R : A -> A -> Prop) n l :
  StronglySorted R l -> StronglySorted R (firstn n l).
Proof.
  intros S. revert n. induction S as [|x l S IH F]; intros [|n]; cbn; try constructor.
  - apply IH.
  - apply Forall_forall. intros y Hy. rewrite Forall_forall in F. apply F.
    rewrite <- (firstn_skipn n l). apply in_or_app. now left.
Qed.




End CorrelatorOrder.

(** ** The settings endpoints *)

Section Settings.
Import Py Normalizers Models Notifications Router Props Examples.

Ltac step_setattr H :=
  unfold setattr, and_then in H;
  repeat match type of H with
         | match ?m with Some _ => _ | None => None end = Some _ =>
             let E := fresh "E" in destruct m eqn:E; [|discriminate H]
         end.

Lemma setattr_id c key val c' :
  setattr c key val = Some c' -> ActivityWebhookConfig.id c' = ActivityWebhookConfig.id c.
Proof. intros H. step_setattr H. now injection H as <-. Qed.

Lemma assign_id pairs : forall c c',
  assign c pairs = Some c' -> ActivityWebhookConfig.id c' = ActivityWebhookConfig.id c.
Proof.
  induction pairs as [|[key val] rest IH]; intros c c'; cbn [assign].
  - now intros [= <-].
  - destruct (existsb _ allowed); [|apply IH].
    unfold and_then. destruct (setattr c key val) as [c1|] eqn:E; [|discriminate].
    intros H. apply IH in H. apply setattr_id in E. congruence.
Qed.

Lemma assign_filter pairs : forall c,
  assign c (filter is_allowed pairs) = assign c pairs.
Proof.
  induction pairs as [|[key val] rest IH]; intros c; [reflexivity|].
  cbn [filter assign]. unfold is_allowed at 1. cbn [fst].
  destruct (existsb _ allowed) eqn:A; [|apply IH].
  cbn [assign]. rewrite A. unfold and_then.
  destruct (setattr c key val); [apply IH|reflexivity].
Qed.

Lemma assign_none_allowed pairs : forall c,
  forallb (fun kv => negb (is_allowed kv)) pairs = true -> assign c pairs = Some c.
Proof.
  induction pairs as [|[key val] rest IH]; intros c; [reflexivity|].
  cbn [forallb assign]. unfold is_allowed at 1. cbn [fst].
  intros H. apply andb_true_iff in H as [H1 H2]. apply negb_true_iff in H1.
  rewrite H1. now apply IH.
Qed.




(** X10.  The settings row is created once, and created off.  Reading the
    settings of a store without a settings row commits one row of column
    defaults, which is disabled and has no destination; reading the
    settings of any store leaves the events alone and every settings row
    that was there, and reading them a second time changes nothing and
    answers the same.  An update whose body is not an object raises, after
    having created the row just as reading does. *)
Theorem get_settings_creates_once :
  forall db,
    let o1 := get_settings db in
    let o2 := get_settings (db_after o1) in
    o2 = {| returned := returned o1; db_after := db_after o1; effects := [] |}
    /\ returned o1 = Ok (ActivityWebhookConfig.to_dict (current_policy db))
    /\ activity_events (db_after o1) = activity_events db
    /\ activity_webhook_config (db_after o1)
       = current_policy db :: tl (activity_webhook_config db)
    /\ (activity_webhook_config db = [] ->
        current_policy db = ActivityWebhookConfig.default 1
        /\ ActivityWebhookConfig.enabled (current_policy db) = false
        /\ url_set (current_policy db) = false)
    /\ (activity_webhook_config db <> [] -> db_after o1 = db)
    /\ (forall body,
          is_dict body = false ->
          update_settings body db
          = Some {| returned := Raise AttributeError; db_after := db_after o1; effects := [] |}).
Proof.
  intros [events [|c rest]]; cbv zeta;
    unfold get_settings, update_settings, current_policy; cbn.
  - repeat split; auto; try (intros H; now contradiction H).
    intros [| | | | |]; intros; try reflexivity; discriminate.
  - repeat split; auto; try discriminate.
    intros [| | | | |]; intros; try reflexivity; discriminate.
Qed.

(** X11.  Only allow-listed keys are written.  Whenever the update
    endpoint answers a request object, the answer is the settings row after
    the update; that row keeps its key, it replaces the first settings row
    and leaves every other row and every event alone; the same request
    without its keys outside the allow-list has the same outcome; and a
    request with no allow-listed key changes no setting. *)
Theorem update_settings_only_allowed_keys :
  forall pairs db o,
    update_settings (JDict pairs) db = Some o ->
    exists c',
      returned o = Ok (ActivityWebhookConfig.to_dict c')
      /\ ActivityWebhookConfig.id c' = ActivityWebhookConfig.id (current_policy db)
      /\ activity_webhook_config (db_after o) = c' :: tl (activity_webhook_config db)
      /\ activity_events (db_after o) = activity_events db
      /\ update_settings (JDict (filter is_allowed pairs)) db = Some o
      /\ (forallb (fun kv => negb (is_allowed kv)) pairs = true -> c' = current_policy db).
Proof.
  intros pairs db o. unfold update_settings, current_policy.
  destruct (_get_or_create_webhook_config db) as [c db'] eqn:G. cbn [fst].
  rewrite assign_filter.
  unfold and_then. destruct (assign c pairs) as [c'|] eqn:A; [|discriminate].
  intros H. injection H as <-. exists c'. cbn [returned db_after].
  assert (D : activity_events db' = activity_events db
              /\ tl (activity_webhook_config db') = tl (activity_webhook_config db)).
  { unfold _get_or_create_webhook_config in G.
    destruct (activity_webhook_config db) as [|c0 rest] eqn:C;
      injection G as <- <-; cbn; rewrite ?C; auto. }
  destruct D as [D1 D2].
  repeat split; auto.
  - now apply assign_id in A.
  - cbn. now rewrite D2.
  - intros F. rewrite (assign_none_allowed pairs c F) in A. now injection A.
Qed.

Lemma update_settings_only_allowed_keys_witness :
  exists c',
    returned o_renamed = Ok (ActivityWebhookConfig.to_dict c')
    /\ ActivityWebhookConfig.id c' = 1
    /\ activity_webhook_config (db_after o_renamed) = [c']
    /\ activity_events (db_after o_renamed) = []
    /\ update_settings (JDict [("webhook_type", JStr "discord")]) db_policy_on = Some o_renamed.
Proof.
  destruct (update_settings_only_allowed_keys
              [("id", JInt 7); ("webhook_type", JStr "discord"); ("admin", JBool true)]
              db_policy_on o_renamed eq_refl) as (c' & R & I & C & E & F & _).
  exists c'. repeat split; assumption.
Defined.


Lemma set_switch_self sw b c : switch_value (set_switch sw b c) sw = b.
Proof. destruct sw; reflexivity. Qed.

Lemma others_on_set_switch r sw b c : others_on r (set_switch sw b c) sw = others_on r c sw.
Proof. destruct sw; reflexivity. Qed.

(** X12.  Setting one switch through the endpoint.  A request that holds
    one switch key and a boolean answers the first settings row with that
    switch set and every other field kept, and commits exactly that.  For
    an event registered with this switch and with no other switch that is
    on, under a policy that is enabled and has a destination, the rule
    matcher then answers the boolean that was set. *)
Theorem update_settings_sets_one_switch :
  forall sw b db c rest,
    activity_webhook_config db = c :: rest ->
    update_settings (JDict [(switch_key sw, JBool b)]) db
    = Some {| returned := Ok (ActivityWebhookConfig.to_dict (set_switch sw b c));
              db_after := {| activity_events := activity_events db;
                             activity_webhook_config := set_switch sw b c :: rest |};
              effects := [] |}
    /\ (forall (ev : Notifications.event) a,
          action ev = JStr a ->
          ActivityWebhookConfig.enabled c = true ->
          url_set c = true ->
          registered (source ev) a sw = true ->
          others_on (registered (source ev) a) c sw = false ->
          _should_notify ev (Some (set_switch sw b c)) = Ok b).
Proof.
  intros sw b db c rest C. split.
  - unfold update_settings, _get_or_create_webhook_config. rewrite C.
    cbv beta iota. rewrite C. destruct sw; reflexivity.
  - intros ev a Ha He Hu Hr Ho.
    rewrite (should_notify_formula ev a _ Ha).
    rewrite (split_switch (registered (source ev) a) _ sw).
    rewrite set_switch_self, others_on_set_switch, Hr, Ho.
    replace (ActivityWebhookConfig.enabled (set_switch sw b c)) with true
      by (now rewrite <- He).
    replace (url_set (set_switch sw b c)) with true by (now rewrite <- Hu).
    now rewrite orb_false_r.
Qed.

Lemma update_settings_sets_one_switch_witness :
  update_settings (JDict [("event_person_detected", JBool false)]) db_policy_on
  = Some {| returned := Ok (ActivityWebhookConfig.to_dict
                              (set_switch PersonDetected false cfg_both));
            db_after := {| activity_events := [];
                           activity_webhook_config :=
                             [set_switch PersonDetected false cfg_both] |};
            effects := [] |}
  /\ _should_notify (with_iso e_person) (Some (set_switch PersonDetected false cfg_both))
     = Ok false.
Proof.
  destruct (update_settings_sets_one_switch PersonDetected false db_policy_on cfg_both []
              eq_refl) as [U N].
  split; [exact U|].
  exact (N (with_iso e_person) "smart_detect:person" eq_refl eq_refl eq_refl eq_refl eq_refl).
Defined.

(** X13.  Reads and writes of the settings agree.  Whenever an update
    answers, reading the settings next answers the same and changes
    nothing; and sending back to the update endpoint what a read has
    answered changes nothing and answers the same again. *)
Theorem settings_read_write_round_trip :
  forall db,
    (forall body o,
        update_settings body db = Some o ->
        forall j, returned o = Ok j ->
        get_settings (db_after o)
        = {| returned := Ok j; db_after := db_after o; effects := [] |})
    /\ (exists j,
          returned (get_settings db) = Ok j
          /\ update_settings j (db_after (get_settings db))
             = Some {| returned := Ok j;
                       db_after := db_after (get_settings db);
                       effects := [] |}).
Proof.
  intros db. split.
  - intros body o. unfold update_settings.
    destruct (_get_or_create_webhook_config db) as [c db'].
    destruct body as [| | | | |pairs]; try (intros [= <-] j H; discriminate H).
    unfold and_then. destruct (assign c pairs) as [c'|]; [|discriminate].
    intros [= <-] j [= <-]. reflexivity.
  - unfold get_settings.
    destruct db as [events [|[i e u t g d h p v r m] rest]]; cbn;
      eexists; (split; [reflexivity|]).
    + reflexivity.
    + unfold update_settings. cbn.
      destruct u, t; reflexivity.
Qed.



End Settings.

(** ** Webhook signatures *)

Example sha256_abc :
  Sha1.hex_of_bytes (Sha256.digest (Sha1.bytes_of_string "abc"))
  = "ba7816bf8f01cfea414140de5dae2223b00361a396177a9cb410ff61f20015ad".
Proof. vm_compute. reflexivity. Qed.

Example sha256_two_blocks :
  Sha1.hex_of_bytes
    (Sha256.digest
       (Sha1.bytes_of_string "abcdbcdecdefdefgefghfghighijhijkijkljklmklmnlmnomnopnopq"))
  = "248d6a61d20638b8e5c026930c3e6039a33ce45964ff2167f6ecedd419db06c1".
Proof. vm_compute. reflexivity. Qed.

Example hmac_sha256_jefe :
  Hmac.hexdigest (Hmac.encode "Jefe") (Sha1.bytes_of_string "what do ya want for nothing?")
  = "5bdcc146bf60754e6a042426089575c75a003f089d2739839dec58b964ec3843".
Proof. vm_compute. reflexivity. Qed.

Section Signatures.
Import Py Normalizers Models Notifications Router Props Examples.

Lemma length_sha256_digest msg : List.length (Sha256.digest msg) = 32%nat.
Proof.
  unfold Sha256.digest.
  destruct (fst _) as [[[[[[[h0 h1] h2] h3] h4] h5] h6] h7]. reflexivity.
Qed.

Lemma is_ascii_app a b : is_ascii (a ++ b) = is_ascii a && is_ascii b.
Proof.
  unfold is_ascii. induction a as [|c a IH]; [reflexivity|].
  cbn [append list_ascii_of_string forallb]. now rewrite IH, andb_assoc.
Qed.

Lemma lower_hex_is_ascii s : all_chars is_lower_hex s = true -> is_ascii s = true.
Proof.
  unfold is_ascii. induction s as [|c s IH]; [reflexivity|].
  cbn [all_chars list_ascii_of_string forallb]. intros H.
  apply andb_true_iff in H as [Hc Hs]. rewrite (IH Hs), andb_true_r.
  unfold is_lower_hex, hexchars in Hc. cbn [existsb] in Hc.
  rewrite !orb_true_iff in Hc.
  repeat destruct Hc as [Hc|Hc]; try (apply Ascii.eqb_eq in Hc; subst c; reflexivity).
  discriminate.
Qed.

Lemma signature_tag_shape secret body :
  is_ascii (signature_tag secret body) = true
  /\ String.length (signature_tag secret body) = 71%nat
  /\ exists hex,
       signature_tag secret body = "sha256=" ++ hex
       /\ all_chars is_lower_hex hex = true.
Proof.
  unfold signature_tag, Hmac.hexdigest.
  split; [|split].
  - rewrite is_ascii_app, (lower_hex_is_ascii _ (hex_of_bytes_lower_hex _)). reflexivity.
  - cbn [append String.length]. now rewrite length_hex_of_bytes, length_sha256_digest.
  - eexists. split; [reflexivity|apply hex_of_bytes_lower_hex].
Qed.

(** X15.  What the signature check accepts.  With no secret configured
    every request passes, whatever it carries.  With a secret, the check
    passes for exactly one header value: [sha256=] followed by the 64
    lowercase hexadecimal digits of the HMAC-SHA256 of the body under the
    secret, 71 characters in all.  A request without the header fails the
    check; a header with a character outside ASCII, and no other, makes
    the check raise [TypeError] instead of answering. *)
Theorem verify_sig_accepts_exactly_the_tag :
  forall body header secret,
    _verify_sig body header "" = Ok true
    /\ (secret <> "" ->
        let tag := signature_tag secret body in
        (_verify_sig body header secret = Ok true <-> header = Some tag)
        /\ String.length tag = 71%nat
        /\ (exists hex, tag = "sha256=" ++ hex /\ all_chars is_lower_hex hex = true)
        /\ _verify_sig body None secret = Ok false
        /\ (forall h, header = Some h ->
              (_verify_sig body header secret = Raise TypeError <-> is_ascii h = false)
              /\ (is_ascii h = true ->
                  _verify_sig body header secret = Ok (tag =? h)%string))).
Proof.
  intros body header secret. split; [reflexivity|].
  intros NE tag.
  destruct (signature_tag_shape secret body) as (A & L & X). fold tag in A, L, X.
  apply String.eqb_neq in NE.
  assert (V : forall hd, _verify_sig body hd secret
                         = compare_digest tag (match hd with Some h => h | None => "" end)).
  { intros hd. unfold _verify_sig. now rewrite NE. }
  assert (C : forall h, compare_digest tag h
                        = if is_ascii h then Ok (tag =? h)%string else Raise TypeError).
  { intros h. unfold compare_digest. now rewrite A. }
  clearbody tag.
  split; [|split; [exact L|split; [exact X|split]]].
  - rewrite V. split.
    + destruct header as [h|]; rewrite C.
      * destruct (is_ascii h); [|discriminate].
        intros [= E]. apply String.eqb_eq in E. now subst.
      * cbn. intros [= E]. apply String.eqb_eq in E.
        rewrite E in L. discriminate L.
    + intros ->. rewrite C, A. now rewrite String.eqb_refl.
  - rewrite V, C. cbn. f_equal.
    apply String.eqb_neq. intros E. rewrite E in L. discriminate L.
  - intros h ->. rewrite V, C.
    destruct (is_ascii h); (split; [split|]); try reflexivity; try discriminate.
Qed.

Lemma verify_sig_accepts_exactly_the_tag_witness :
  _verify_sig "{}" (Some "sha256=0000") "" = Ok true
  /\ _verify_sig "{}" (Some sig_empty_object) "s3cret" = Ok true
  /\ String.length sig_empty_object = 71%nat
  /\ _verify_sig "{}" None "s3cret" = Ok false.
Proof.
  destruct (verify_sig_accepts_exactly_the_tag "{}" (Some sig_empty_object) "s3cret")
    as [_ H].
  destruct H as (I & L & _ & N & _); [discriminate|].
  assert (E : sig_empty_object = signature_tag "s3cret" "{}") by (vm_compute; reflexivity).
  split; [reflexivity|]. split; [apply I; now rewrite E|].
  split; [now rewrite E|exact N].
Defined.

(** X16.  Requests that fail the signature check change nothing.  With a
    secret configured, a request to either receiver whose signature header
    (the first of [X-Signature] and [X-Hub-Signature-256] that is present
    and not empty) is not the expected value is answered with status 401,
    or ends in the [TypeError] of the comparison, before the body is
    parsed: nothing is stored and nothing is logged or sent.  A request
    with the expected value, and every request when no secret is
    configured, is answered with status 400 if its body is not JSON and is
    otherwise handled as the receiver handles the parsed body. *)
Theorem unsigned_requests_change_nothing :
  forall loads secret net now req db,
    let handled :=
      (post_webhooks_access loads secret net now req db
       = match loads (body req) with
         | None => HTTPException 400 "Invalid JSON"
         | Some payload => Handled (webhook_access net now payload db)
         end)
      /\ (post_webhooks_protect loads secret net now req db
          = match loads (body req) with
            | None => HTTPException 400 "Invalid JSON"
            | Some payload => Handled (webhook_protect net now payload db)
            end) in
    let refused :=
      exists r,
        (r = HTTPException 401 "Invalid signature"
         \/ r = Handled {| returned := Raise TypeError; db_after := db; effects := [] |})
        /\ post_webhooks_access loads secret net now req db = r
        /\ post_webhooks_protect loads secret net now req db = r in
    (secret = "" -> handled)
    /\ (secret <> "" ->
        (signature req = Some (signature_tag secret (body req)) -> handled)
        /\ (signature req <> Some (signature_tag secret (body req)) -> refused)).
Proof.
  intros loads secret net now req db handled refused.
  destruct (verify_sig_accepts_exactly_the_tag (body req) (signature req) secret) as [E H].
  split.
  - intros ->. subst handled. unfold post_webhooks_access, post_webhooks_protect, post_webhook.
    rewrite E. split; reflexivity.
  - intros NE. destruct (H NE) as (I & _ & _ & N & B). split.
    + intros S. apply I in S. subst handled.
      unfold post_webhooks_access, post_webhooks_protect, post_webhook.
      rewrite S. split; reflexivity.
    + intros S. subst refused.
      unfold post_webhooks_access, post_webhooks_protect, post_webhook.
      destruct (signature req) as [h|] eqn:Sg.
      * destruct (B h eq_refl) as [T A].
        destruct (is_ascii h) eqn:Ah.
        -- rewrite (A eq_refl).
           destruct (String.eqb_spec (signature_tag secret (body req)) h) as [Eq|Ne].
           ++ exfalso. apply S. now rewrite Eq.
           ++ eexists. split; [left; reflexivity|split; reflexivity].
        -- rewrite (proj2 T eq_refl).
           eexists. split; [right; reflexivity|split; reflexivity].
      * rewrite N. eexists. split; [left; reflexivity|split; reflexivity].
Qed.

Lemma unsigned_requests_change_nothing_witness :
  post_webhooks_access (fun _ => Some (JDict d_granted)) "s3cret" net_ok 5
    {| body := "{}"; x_signature := Some ""; x_hub_signature_256 := Some "sha256=00" |}
    empty_db
  = HTTPException 401 "Invalid signature".
Proof.
  destruct (unsigned_requests_change_nothing (fun _ => Some (JDict d_granted)) "s3cret" net_ok 5
              {| body := "{}"; x_signature := Some ""; x_hub_signature_256 := Some "sha256=00" |}
              empty_db) as [_ H].
  destruct H as [_ R]; [discriminate|].
  destruct R as (r & [->| ->] & A & _).
  - vm_compute. intros E. discriminate E.
  - exact A.
  - exfalso. revert A. vm_compute. discriminate.
Defined.

End Signatures.

(** ** The query endpoint *)

Example like_demo :
  Router.like "%a_c%" "xabcx" = true /\ Router.like "%a_c%" "ac" = false
  /\ Router.like "%_%" "" = false /\ Router.like "%%" "" = true
  /\ Router.like "a%b" "axxb" = true /\ Router.like "a%b" "axxbc" = false.
Proof. repeat split. Qed.

Section Queries.
Import Py Normalizers Models Notifications Router Props Examples.

Variable stored_text : json -> option string.

Lemma in_insert_newest r x l : In r (insert_newest x l) <-> r = x \/ In r l.
Proof.
  induction l as [|y l IH]; simpl.
  - intuition congruence.
  - destruct (_ <=? _); simpl; rewrite ?IH; intuition congruence.
Qed.

Lemma in_newest_first r l : In r (newest_first l) <-> In r l.
Proof.
  induction l as [|x l IH]; simpl; [tauto|].
  rewrite in_insert_newest, IH. intuition congruence.
Qed.

Lemma insert_newest_sorted r l :
  StronglySorted not_older l -> StronglySorted not_older (insert_newest r l).
Proof.
  induction 1 as [|r' l S IH F]; cbn [insert_newest].
  - repeat constructor.
  - destruct (Z.leb_spec (ActivityEvent.occurred_at r') (ActivityEvent.occurred_at r)) as [L|L].
    + constructor; [now constructor|].
      constructor; [exact L|].
      eapply Forall_impl; [|exact F]. unfold not_older. intros; lia.
    + constructor; [exact IH|].
      apply Forall_forall. intros x Hx. apply in_insert_newest in Hx as [->|Hx].
      * unfold not_older. lia.
      * rewrite Forall_forall in F. auto.
Qed.

Lemma newest_first_sorted l : StronglySorted not_older (newest_first l).
Proof.
  induction l as [|r l IH]; cbn; [constructor|now apply insert_newest_sorted].
Qed.

Lemma length_insert_newest r l : List.length (insert_newest r l) = S (List.length l).
Proof.
  induction l as [|r' l IH]; cbn [insert_newest]; [reflexivity|].
  destruct (_ <=? _); cbn; auto.
Qed.

Lemma length_newest_first l : List.length (newest_first l) = List.length l.
Proof.
  induction l as [|r l IH]; [reflexivity|].
  change (newest_first (r :: l)) with (insert_newest r (newest_first l)).
  now rewrite length_insert_newest, IH.
Qed.

Lemma skipn_sorted {A} (R : A -> A -> Prop) n l :
  StronglySorted R l -> StronglySorted R (skipn n l).
Proof.
  intros S. revert n. induction S as [|x l S IH F]; intros [|n]; cbn; try constructor; auto.
Qed.

Lemma in_sql_offset {A} n (l : list A) x : In x (sql_offset n l) -> In x l.
Proof.
  unfold sql_offset. intros H.
  rewrite <- (firstn_skipn (Z.to_nat n) l). apply in_or_app. now right.
Qed.

Lemma length_sql_limit {A} n (l : list A) :
  (List.length (sql_limit n l) <= List.length l)%nat
  /\ (0 <= n -> Z.of_nat (List.length (sql_limit n l)) <= n).
Proof.
  unfold sql_limit. destruct (Z.ltb_spec n 0).
  - split; [lia|lia].
  - pose proof (firstn_le_length (Z.to_nat n) l).
    rewrite length_firstn. split; lia.
Qed.


Lemma like_percent pattern s :
  like (String "%" pattern) s
  = like pattern s
    || match s with EmptyString => false | String _ s' => like (String "%" pattern) s' end.
Proof. destruct s; reflexivity. Qed.

Lemma like_any s : like "%" s = true.
Proof.
  induction s as [|c s IH]; [reflexivity|].
  rewrite like_percent, IH. apply orb_true_r.
Qed.

Lemma like_prefix t after : like (t ++ "%") (t ++ after) = true.
Proof.
  induction t as [|p t IH]; [apply like_any|].
  change (String p t ++ "%") with (String p (t ++ "%")).
  change (String p t ++ after) with (String p (t ++ after)).
  destruct (Ascii.eqb_spec p "%") as [->|N].
  - rewrite like_percent, (like_percent (t ++ "%") (t ++ after)), IH.
    cbn [orb]. apply orb_true_r.
  - cbn [like]. apply Ascii.eqb_neq in N. rewrite N, IH, Ascii.eqb_refl.
    now rewrite orb_true_r.
Qed.

Lemma like_skip pattern before s :
  like (String "%" pattern) s = true -> like (String "%" pattern) (before ++ s) = true.
Proof.
  intros H. induction before as [|c before IH]; [exact H|].
  change (String c before ++ s) with (String c (before ++ s)).
  rewrite like_percent, IH. apply orb_true_r.
Qed.

Lemma lower_app a b : lower (a ++ b) = lower a ++ lower b.
Proof.
  unfold lower. induction a as [|c a IH]; [reflexivity|].
  cbn [append map_chars]. now rewrite IH.
Qed.

(** A filter finds the texts its parameter occurs in. *)
Lemma ilike_within x v s :
  column_text stored_text v = Some s -> within x s -> ilike stored_text x v = true.
Proof.
  intros C (before & after & E). unfold ilike. rewrite C, E.
  rewrite !lower_app. change (lower "%") with "%".
  change ("%" ++ lower x ++ "%") with (String "%" (lower x ++ "%")).
  apply like_skip. rewrite like_percent, like_prefix. reflexivity.
Qed.

Lemma within_self s : within s s.
Proof.
  exists "", "". cbn [append].
  induction (lower s) as [|c t IH]; [reflexivity|]. cbn [append]. now rewrite <- IH.
Qed.

Lemma filter_agree {A} (f g : A -> bool) l :
  (forall x, In x l -> f x = g x) -> filter f l = filter g l.
Proof.
  induction l as [|x l IH]; intros E; [reflexivity|].
  cbn [filter]. rewrite (E x (or_introl eq_refl)), IH; [reflexivity|].
  intros y Hy. apply E. now right.
Qed.

(** X17.  The page and the total.  Whenever the query endpoint answers,
    [total] is the number of stored rows that pass the filters, whatever
    [limit] and [offset] are, and the answer repeats [limit] and [offset];
    the returned rows are stored rows that pass the filters, newest
    first, no more than [total] and, with a limit of zero or more, no more
    than [limit]. *)
Theorem get_events_page_and_total :
  forall source action user_id location since until limit offset db p,
    get_events stored_text source action user_id location since until limit offset db
    = Some p ->
    let pass := selected stored_text source action user_id location since until in
    total p = Z.of_nat (List.length (filter pass (activity_events db)))
    /\ Router.limit p = limit
    /\ Router.offset p = offset
    /\ (forall r, In r (events p) -> In r (activity_events db) /\ pass r = true)
    /\ StronglySorted not_older (events p)
    /\ Z.of_nat (List.length (events p)) <= total p
    /\ (0 <= limit -> Z.of_nat (List.length (events p)) <= limit)
    /\ (forall limit' offset',
          limit' <= 1000 ->
          exists p',
            get_events stored_text source action user_id location since until
              limit' offset' db = Some p'
            /\ total p' = total p).
Proof.
  intros source action user_id location since until limit offset db p H pass.
  unfold get_events in *. destruct (limit <=? 1000); [|discriminate].
  injection H as <-.
  cbn [total Router.limit Router.offset events]. fold pass.
  set (found := filter pass (activity_events db)).
  repeat split.
  - apply in_sql_limit, in_sql_offset in H. apply (proj1 (in_newest_first _ _)) in H.
    now apply filter_In in H.
  - apply in_sql_limit, in_sql_offset in H. apply (proj1 (in_newest_first _ _)) in H.
    now apply filter_In in H.
  - unfold sql_limit, sql_offset.
    destruct (limit <? 0); [|apply firstn_sorted]; apply skipn_sorted, newest_first_sorted.
  - destruct (length_sql_limit limit (sql_offset offset (newest_first found))) as [L _].
    unfold sql_offset in *. rewrite length_skipn, length_newest_first in L. lia.
  - intros L. now apply length_sql_limit.
  - intros limit' offset' L. apply Z.leb_le in L. rewrite L.
    eexists. split; reflexivity.
Qed.

Lemma firstn_skipn_add {A} a b (l : list A) :
  (firstn a l ++ firstn b (skipn a l))%list = firstn (a + b) l.
Proof.
  revert l. induction a as [|a IH]; intros l; [reflexivity|].
  destruct l as [|x l]; cbn [firstn skipn Nat.add app].
  - now rewrite firstn_nil.
  - now rewrite IH.
Qed.

Lemma skipn_skipn_add {A} a b (l : list A) : skipn b (skipn a l) = skipn (a + b) l.
Proof.
  revert l. induction a as [|a IH]; intros l; [reflexivity|].
  destruct l as [|x l]; cbn [skipn Nat.add]; [now rewrite skipn_nil|apply IH].
Qed.

(** X18.  Pages tile the result.  For an offset and limits of zero or
    more, the page of [l1] rows at offset [o] followed by the page of [l2]
    rows at offset [o + l1] is the page of [l1 + l2] rows at offset [o]:
    walking the pages loses and repeats no row.  A query without bounds
    (negative limit, offset zero or less) answers every row that passes the
    filters, and a page at an offset of [total] or more is empty. *)
Theorem get_events_pages_tile :
  forall source action user_id location since until db,
    let query := get_events stored_text source action user_id location since until in
    (forall o l1 l2 p1 p2,
        0 <= o -> 0 <= l1 -> 0 <= l2 -> l1 + l2 <= 1000 ->
        query l1 o db = Some p1 ->
        query l2 (o + l1) db = Some p2 ->
        exists p,
          query (l1 + l2) o db = Some p
          /\ events p = (events p1 ++ events p2)%list)
    /\ (forall limit offset p,
          query limit offset db = Some p ->
          (limit < 0 -> offset <= 0 -> Z.of_nat (List.length (events p)) = total p)
          /\ (total p <= offset -> events p = [])).
Proof.
  intros source action user_id location since until db query. subst query.
  unfold get_events.
  set (all := newest_first (filter _ (activity_events db))).
  assert (LA : List.length all
               = List.length (filter (selected stored_text source action user_id location
                                        since until) (activity_events db)))
    by apply length_newest_first.
  split.
  - intros o l1 l2 p1 p2 Ho H1 H2 Hs.
    destruct (Z.leb_spec l1 1000); [|lia]. destruct (Z.leb_spec l2 1000); [|lia].
    destruct (Z.leb_spec (l1 + l2) 1000); [|lia].
    intros [= <-] [= <-]. eexists. split; [reflexivity|].
    cbn [events]. unfold sql_limit, sql_offset.
    destruct (Z.ltb_spec l1 0); [lia|]. destruct (Z.ltb_spec l2 0); [lia|].
    destruct (Z.ltb_spec (l1 + l2) 0); [lia|].
    rewrite !Z2Nat.inj_add by lia.
    rewrite <- skipn_skipn_add. apply eq_sym, firstn_skipn_add.
  - intros limit offset p. destruct (limit <=? 1000); [|discriminate].
    intros [= <-]. cbn [events total]. unfold sql_limit, sql_offset. split.
    + intros L O. destruct (Z.ltb_spec limit 0); [|lia].
      replace (Z.to_nat offset) with 0%nat by lia. cbn [skipn]. now rewrite LA.
    + intros T. rewrite skipn_all2 by lia. destruct (limit <? 0); [reflexivity|].
      apply firstn_nil.
Qed.

(** X19.  A stored event is found by its own fields.  Take a stored row
    whose action, actor id and location are texts.  A query whose source
    filter is the row's source, whose three text filters each occur in the
    row's text, letter case aside, in particular the row's own action,
    actor id and location, characters [%] and [_] included, and whose time
    range holds the row's [occurred_at], counts the row in [total]; and it
    returns the row, unless offset or limit cut it off. *)
Theorem stored_event_is_found_by_its_own_fields :
  forall r db a u l x y z since until limit offset p,
    In r (activity_events db) ->
    column_text stored_text (ActivityEvent.action r) = Some a ->
    column_text stored_text (ActivityEvent.user_id r) = Some u ->
    column_text stored_text (ActivityEvent.location r) = Some l ->
    within x a -> within y u -> within z l ->
    since <= ActivityEvent.occurred_at r <= until ->
    get_events stored_text (Some (ActivityEvent.source r)) (Some x) (Some y) (Some z)
      (Some since) (Some until) limit offset db = Some p ->
    within a a /\ within u u /\ within l l
    /\ 1 <= total p
    /\ (offset <= 0 -> limit < 0 \/ total p <= limit -> In r (events p)).
Proof.
  intros r db a u l x y z since until limit offset p I A U L X Y Z T.
  unfold get_events. destruct (limit <=? 1000); [|discriminate].
  intros [= <-]. cbn [total events].
  set (pass := selected _ _ _ _ _ _ _).
  assert (P : pass r = true).
  { subst pass. unfold selected, when_given.
    rewrite String.eqb_refl.
    rewrite (ilike_within x _ a A X), (ilike_within y _ u U Y), (ilike_within z _ l L Z).
    destruct (_ =? "")%string, (x =? "")%string, (y =? "")%string, (z =? "")%string;
      cbn [andb]; apply andb_true_iff; split; apply Z.leb_le; lia. }
  assert (F : In r (filter pass (activity_events db))) by (apply filter_In; auto).
  repeat split; try apply within_self.
  - destruct (filter pass (activity_events db)); [destruct F|]. cbn [List.length]. lia.
  - intros O C. unfold sql_offset, sql_limit.
    replace (Z.to_nat offset) with 0%nat by lia. cbn [skipn].
    assert (N : In r (newest_first (filter pass (activity_events db))))
      by now apply in_newest_first.
    destruct (Z.ltb_spec limit 0); [exact N|].
    rewrite firstn_all2; [exact N|]. rewrite length_newest_first. lia.
Qed.

(** X20.  The text filters are LIKE patterns.  A text filter never selects
    a row whose column is NULL.  The filter [%] selects every row whose
    column is not NULL, and the filter [_] every row whose column holds a
    text that is not empty: with the action filter [_] and no other
    filter, [total] is the number of stored rows whose action is a text
    that is not empty. *)
Theorem text_filters_are_like_patterns :
  forall db limit offset p,
    get_events stored_text None (Some "_") None None None None limit offset db = Some p ->
    total p
    = Z.of_nat (List.length
                  (filter (fun r => has_text (column_text stored_text (ActivityEvent.action r)))
                     (activity_events db)))
    /\ (forall x v, column_text stored_text v = None -> ilike stored_text x v = false)
    /\ (forall v s, column_text stored_text v = Some s ->
          ilike stored_text "%" v = true
          /\ ilike stored_text "_" v = negb (s =? "")%string).
Proof.
  intros db limit offset p. unfold get_events.
  destruct (limit <=? 1000); [|discriminate].
  intros [= <-]. cbn [total].
  assert (W : forall v s, column_text stored_text v = Some s ->
                ilike stored_text "%" v = true
                /\ ilike stored_text "_" v = negb (s =? "")%string).
  { intros v s C. unfold ilike. rewrite C.
    change (lower ("%" ++ "%" ++ "%")) with "%%%".
    change (lower ("%" ++ "_" ++ "%")) with "%_%".
    split.
    - rewrite like_percent, like_percent, like_any. reflexivity.
    - destruct (lower s) as [|c t] eqn:E.
      + destruct s; [reflexivity|discriminate E].
      + destruct s as [|c' s']; [discriminate E|]. cbn [String.eqb negb].
        rewrite like_percent. cbn [like Ascii.eqb Bool.eqb orb andb].
        now rewrite like_any. }
  split; [|split; [|exact W]].
  - f_equal. f_equal. apply filter_agree. intros r _.
    unfold selected, when_given. cbn [String.eqb Ascii.eqb Bool.eqb andb].
    rewrite !andb_true_r.
    destruct (column_text stored_text (ActivityEvent.action r)) as [s|] eqn:C.
    + now destruct (W _ s C) as [_ ->].
    + unfold ilike. now rewrite C.
  - intros x v C. unfold ilike. now rewrite C.
Qed.

End Queries.

Section QueryExamples.
Import Py Normalizers Models Notifications Router Props Examples.

Lemma get_events_page_and_total_witness :
  get_events sqlite_text (Some "protect") None None None None None 1 0 db_tailgate
  = Some {| total := 1; limit := 1; offset := 0; events := [row_person_later] |}
  /\ Z.of_nat (List.length [row_person_later]) <= 1.
Proof.
  split; [reflexivity|].
  destruct (get_events_page_and_total sqlite_text (Some "protect") None None None None None
              1 0 db_tailgate
              {| total := 1; limit := 1; offset := 0; events := [row_person_later] |}
              eq_refl) as (_ & _ & _ & _ & _ & L & _).
  exact L.
Defined.


Lemma stored_event_is_found_by_its_own_fields_witness :
  get_events sqlite_text (Some "protect") (Some "PERSON") (Some "cam-7") (Some "cam")
    (Some 1700000045000000) (Some 1700000045000000) 50 0 db_tailgate
  = Some {| total := 1; limit := 50; offset := 0; events := [row_person_later] |}
  /\ In row_person_later [row_person_later].
Proof.
  split; [vm_compute; reflexivity|].
  destruct (stored_event_is_found_by_its_own_fields sqlite_text row_person_later db_tailgate
              "smart_detect:person" "cam-7" "cam-7" "PERSON" "cam-7" "cam"
              1700000045000000 1700000045000000 50 0
              {| total := 1; limit := 50; offset := 0; events := [row_person_later] |})
    as (_ & _ & _ & _ & I); try reflexivity.
  - right. now left.
  - now exists "smart_detect:", "".
  - now exists "", "".
  - now exists "", "-7".
  - cbn. lia.
  - apply I; [reflexivity|right; cbn; lia].
Defined.

Lemma text_filters_are_like_patterns_witness :
  get_events sqlite_text None (Some "_") None None None None 10 0 db_tailgate
  = Some {| total := 2; limit := 10; offset := 0;
            events := [row_person_later; row_denied_first] |}
  /\ 2 = Z.of_nat (List.length (activity_events db_tailgate)).
Proof.
  split; [vm_compute; reflexivity|].
  destruct (text_filters_are_like_patterns sqlite_text db_tailgate 10 0
              {| total := 2; limit := 10; offset := 0;
                 events := [row_person_later; row_denied_first] |}) as (T & _ & _).
  - vm_compute. reflexivity.
  - exact T.
Defined.

End QueryExamples.

(** ** Timestamps given as decimal text *)

Section DecimalText.
Import Py Normalizers Models Notifications Router Props Examples.












End DecimalText.

(** ** Batches as sequences of requests *)

Section Sequence.
Import Py Normalizers Models Notifications Router Props Examples.

Lemma store_all_app normalize net now l1 l2 : forall stored db,
  store_all normalize net now (l1 ++ l2) stored db
  = let o1 := store_all normalize net now l1 stored db in
    match returned o1 with
    | Raise e => o1
    | Ok n =>
        let o2 := store_all normalize net now l2 n (db_after o1) in
        {| returned := returned o2;
           db_after := db_after o2;
           effects := (effects o1 ++ effects o2)%list |}
    end.
Proof.
  induction l1 as [|raw rest IH]; intros stored db; cbn [app store_all].
  - cbv zeta. cbn [returned db_after effects app].
    now destruct (store_all normalize net now l2 stored db).
  - destruct (normalize now raw) as [[normalized|]|x]; [| apply IH | reflexivity].
    destruct (returned (_store_event net now normalized db)) as [[]|x] eqn:R;
      [|cbv zeta; cbn [returned]; reflexivity].
    rewrite IH. cbv zeta. cbn [returned db_after effects].
    destruct (returned (store_all normalize net now rest (stored + 1) _)) as [n|x] eqn:E;
      cbn [returned db_after effects]; [now rewrite app_assoc|now rewrite E].
Qed.

Lemma store_all_shift normalize net now l : forall stored k db,
  let o := store_all normalize net now l stored db in
  store_all normalize net now l (stored + k) db
  = {| returned := match returned o with Ok n => Ok (n + k) | Raise e => Raise e end;
       db_after := db_after o;
       effects := effects o |}.
Proof.
  induction l as [|raw rest IH]; intros stored k db; cbn [store_all].
  - reflexivity.
  - destruct (normalize now raw) as [[normalized|]|x]; [|apply IH|reflexivity].
    destruct (returned (_store_event net now normalized db)) as [[]|x];
      [|reflexivity].
    cbv zeta. replace (stored + k + 1) with (stored + 1 + k) by lia.
    rewrite IH. cbv zeta. cbn [returned db_after effects]. reflexivity.
Qed.


Lemma receive_app normalize net now l1 l2 db :
  let o1 := receive normalize net now (JList l1) db in
  let o := receive normalize net now (JList (l1 ++ l2)) db in
  match returned o1 with
  | Raise e => o = o1
  | Ok r1 =>
      let o2 := receive normalize net now (JList l2) (db_after o1) in
      db_after o = db_after o2
      /\ effects o = (effects o1 ++ effects o2)%list
      /\ returned o
         = match returned o2 with
           | Ok r2 => Ok {| status := "ok";
                            received := received r1 + received r2;
                            stored := stored r1 + stored r2 |}
           | Raise e => Raise e
           end
  end.
Proof.
  cbv zeta. unfold receive. cbn [returned db_after effects].
  rewrite store_all_app. cbv zeta.
  destruct (returned (store_all normalize net now l1 0 db)) as [n|x] eqn:R1.
  - cbn [returned db_after effects].
    pose proof (store_all_shift normalize net now l2 0 n
                  (db_after (store_all normalize net now l1 0 db))) as S.
    cbv zeta in S. rewrite Z.add_0_l in S. rewrite S. cbn [returned db_after effects].
    repeat split.
    destruct (returned (store_all normalize net now l2 0 _)) as [m|y]; [|reflexivity].
    cbn [received stored]. rewrite length_app, Nat2Z.inj_add. f_equal. f_equal. lia.
  - now rewrite R1.
Qed.

(** X22.  A batch is a sequence of requests.  For either receiver, a list
    body [l1 ++ l2] is handled as the body [l1] followed, on the database
    that leaves, by the body [l2]: if the first ends in an exception, so
    does the whole with the same database and trace, and the items of [l2]
    are never looked at; otherwise the database is the one the second
    leaves, the trace is the two traces in a row, and the counters add up,
    or the exception of the second is the result.  A body that is not a
    list is handled as the list of that one item. *)
Theorem batch_is_a_sequence_of_requests :
  forall net now l1 l2 db,
    let law (receiver : network -> datetime -> json -> database -> outcome webhook_response) :=
      let o1 := receiver net now (JList l1) db in
      let o := receiver net now (JList (l1 ++ l2)) db in
      match returned o1 with
      | Raise e => o = o1
      | Ok r1 =>
          let o2 := receiver net now (JList l2) (db_after o1) in
          db_after o = db_after o2
          /\ effects o = (effects o1 ++ effects o2)%list
          /\ returned o
             = match returned o2 with
               | Ok r2 => Ok {| status := "ok";
                                received := received r1 + received r2;
                                stored := stored r1 + stored r2 |}
               | Raise e => Raise e
               end
      end in
    law webhook_access /\ law webhook_protect
    /\ (forall payload,
          items payload = [payload] ->
          webhook_access net now (JList [payload]) db = webhook_access net now payload db
          /\ webhook_protect net now (JList [payload]) db = webhook_protect net now payload db).
Proof.
  intros net now l1 l2 db law. subst law. cbv beta.
  split; [apply (receive_app normalize_access)|].
  split; [apply (receive_app normalize_protect)|].
  intros payload I. unfold webhook_access, webhook_protect, receive.
  fold (items payload). rewrite I. split; reflexivity.
Qed.

Lemma batch_is_a_sequence_of_requests_witness :
  effects (webhook_access net_ok 5 (JList [JDict d_granted; JInt 0; JDict d_granted]) db_policy_on)
  = effects (webhook_access net_ok 5 (JList [JDict d_granted]) db_policy_on)
  /\ returned (webhook_access net_ok 5 (JList [JDict d_granted; JInt 0; JDict d_granted])
                 db_policy_on) = Raise AttributeError
  /\ List.length (activity_events
                    (db_after (webhook_access net_ok 5
                                 (JList [JDict d_granted; JInt 0; JDict d_granted])
                                 db_policy_on))) = 1%nat.
Proof.
  destruct (batch_is_a_sequence_of_requests net_ok 5 [JDict d_granted]
              [JInt 0; JDict d_granted] db_policy_on) as (A & _ & _).
  cbv zeta in A.
  change ([JDict d_granted] ++ [JInt 0; JDict d_granted])%list
    with [JDict d_granted; JInt 0; JDict d_granted] in A.
  destruct (returned (webhook_access net_ok 5 (JList [JDict d_granted]) db_policy_on))
    as [r1|x] eqn:R; [|exfalso; revert R; vm_compute; discriminate].
  destruct A as (D & E & Rt).
  split; [|split].
  - rewrite E. vm_compute. reflexivity.
  - rewrite Rt. vm_compute. reflexivity.
  - rewrite D. vm_compute. reflexivity.
Defined.

End Sequence.

(** ** When the deliverer raises *)

Section DeliveryErrors.
Import Py Normalizers Models Notifications Router Props Examples.

Lemma should_notify_gate (ev : Notifications.event) c r :
  _should_notify ev (Some c) = r ->
  r <> Ok false ->
  ActivityWebhookConfig.enabled c = true /\ url_set c = true
  /\ (is_str (action ev) = false -> source ev = "protect").
Proof.
  unfold _should_notify. intros <- N.
  destruct (ActivityWebhookConfig.enabled c); [|now contradiction N].
  destruct (url_set c); [|now contradiction N].
  repeat split. intros S. cbn [negb orb] in N.
  destruct (action ev) as [|b|z|a|l|d]; try discriminate S;
    cbn [eq_str andb orb] in N; rewrite ?andb_false_r in N;
    (destruct (String.eqb_spec (source ev) "protect") as [P|P];
     [exact P|now contradiction N]).
Qed.

Lemma should_notify_raises (ev : Notifications.event) config x :
  _should_notify ev config = Raise x ->
  x = TypeError /\ is_str (action ev) = false.
Proof.
  unfold _should_notify. destruct config as [c|]; [|discriminate].
  destruct (_ || _); [discriminate|].
  destruct (action ev) as [|b|z|a|l|d]; cbn [eq_str andb orb py_in bind is_str];
    rewrite ?andb_false_r;
    repeat match goal with
           | |- context [if ?b then _ else _] => destruct b
           end;
    intros H; try discriminate H; now injection H as <-.
Qed.

Lemma formatter_raises (ev : Notifications.event) x :
  _format_slack ev = Raise x \/ _format_discord ev = Raise x ->
  (x = TypeError \/ x = AttributeError) /\ is_str (action ev) = false.
Proof.
  unfold _format_slack, _format_discord.
  destruct (action ev) as [|b|z|a|l|d]; cbn [table_get action_title bind is_str];
    intros [H|H]; try discriminate H; injection H as <-; auto.
Qed.

(** X23.  When the deliverer raises.  The deliverer can end in an
    exception only for an event of source [protect] whose action is not a
    string, under a policy that is enabled and has a destination; the
    exception is a [TypeError] or an [AttributeError], it is raised before
    any request is made, and it is the same whatever the network would have
    answered. *)
Theorem send_notification_raises_only_on_malformed_protect_events :
  forall net (ev : Notifications.event) config x,
    send_notification net ev config = Raise x ->
    (x = TypeError \/ x = AttributeError)
    /\ source ev = "protect"
    /\ is_str (action ev) = false
    /\ (exists c, config = Some c
                  /\ ActivityWebhookConfig.enabled c = true /\ url_set c = true)
    /\ (forall net', send_notification net' ev config = Raise x).
Proof.
  intros net ev config x H.
  unfold send_notification in H.
  destruct (_should_notify ev config) as [fire|y] eqn:N; cbn [bind] in H.
  - destruct fire; [|destruct config; discriminate H].
    destruct config as [c|]; [|discriminate H].
    destruct (should_notify_gate ev c _ N) as (En & Us & P); [discriminate|].
    match type of H with
    | context [bind ?m _] => destruct m as [payload|y] eqn:F; cbn [bind] in H
    end.
    + destruct (net _ payload) as [st body| |msg]; [destruct (st <? 300)| |];
        discriminate H.
    + injection H as ->.
      assert (R : (x = TypeError \/ x = AttributeError) /\ is_str (action ev) = false).
      { apply formatter_raises.
        destruct (_ =? "slack")%string; [now left|].
        destruct (_ =? "discord")%string; [now right|discriminate F]. }
      destruct R as [X S].
      repeat split; auto.
      * exists c. auto.
      * intros net'. unfold send_notification. rewrite N. cbn [bind]. now rewrite F.
  - injection H as ->.
    destruct (should_notify_raises ev config x N) as [E S]. subst x.
    destruct config as [c|]; [|discriminate N].
    destruct (should_notify_gate ev c _ N) as (En & Us & P); [discriminate|].
    repeat split; auto.
    + exists c. auto.
    + intros net'. unfold send_notification. now rewrite N.
Qed.

Lemma send_notification_raises_only_on_malformed_protect_events_witness :
  send_notification net_ok (with_iso e_numeric) (Some cfg_both) = Raise TypeError
  /\ source (with_iso e_numeric) = "protect"
  /\ send_notification net_down (with_iso e_numeric) (Some cfg_both) = Raise TypeError.
Proof.
  destruct (send_notification_raises_only_on_malformed_protect_events net_ok
              (with_iso e_numeric) (Some cfg_both) TypeError eq_refl)
    as (_ & P & _ & _ & I).
  split; [reflexivity|]. split; [exact P|exact (I net_down)].
Defined.

End DeliveryErrors.

(** ** Identifiers supplied by the sources *)

Section SourceIds.
Import Py Normalizers Models Notifications Router Props Examples.





End SourceIds.
